(** * Lazy datasets: a shallow embedding of [lazy_dataset.py]

    The development follows
    [grain/_src/python/lazy_dataset/lazy_dataset.py]:

    - Python integers are unbounded, so they are [Z]; [//] and [%] are
      floor division and floor modulo, which is what [Z.div] and
      [Z.modulo] compute (the remainder takes the sign of the divisor).
    - A Python call either returns or raises: [result A].
    - [None], the sparse element of a [LazyMapDataset], is [None] of
      [option T].
    - The [len] builtin rejects a negative [__len__]; its bound
      [sys.maxsize] is not modelled (lengths are taken below it). *)

From stdpp Require Import gmap strings list pretty.
From Stdlib Require Import ZArith Lia.
From Stdlib Require QArith Qround.
From Equations Require Import Equations.

Open Scope Z_scope.

(** ** Exceptions and results *)

Inductive exn : Type :=
  | ZeroDivisionError
  | ValueError
  | IndexError
  | AssertionError
  | KeyError
  | OtherError (code : Z).

Inductive result (A : Type) : Type :=
  | Ok (a : A)
  | Raise (e : exn).
Arguments Ok {A} a.
Arguments Raise {A} e.

Definition bind {A B : Type} (r : result A) (k : A -> result B) : result B :=
  match r with
  | Ok a => k a
  | Raise e => Raise e
  end.

Notation "x <- r ;; k" := (bind r (fun x => k))
  (at level 100, r at next level, right associativity).

Definition rejected {A : Type} (r : result A) : Prop :=
  exists e, r = Raise e.

Definition returns {A : Type} (r : result A) : Prop :=
  exists a, r = Ok a.

(** ** Python builtins used by the source *)

(** [a // b] *)
Definition py_floordiv (a b : Z) : result Z :=
  if b =? 0 then Raise ZeroDivisionError else Ok (a / b).

(** [a % b] *)
Definition py_mod (a b : Z) : result Z :=
  if b =? 0 then Raise ZeroDivisionError else Ok (a mod b).

(** [len(range(start, stop, step))] *)
Definition py_range_len (start stop step : Z) : result Z :=
  if step =? 0 then Raise ValueError
  else if 0 <? step then
    Ok (if start <? stop then (stop - start - 1) / step + 1 else 0)
  else
    Ok (if stop <? start then (start - stop - 1) / (- step) + 1 else 0).

(** [list(range(a, b))] *)
Definition py_range (a b : Z) : list Z :=
  map (fun k => a + Z.of_nat k) (seq 0 (Z.to_nat (b - a))).

(** [len(x)] on an object whose [__len__] gives [r] *)
Definition py_len (r : result Z) : result Z :=
  n <- r ;; if n <? 0 then Raise ValueError else Ok n.

(** ** [LazyMapDataset]: the abstract base class

    The two abstract methods; [__getitem__] is taken at [int] indices
    (the [slice] overload builds another dataset and is not an access). *)

Record LazyMapDataset (T : Type) : Type := {
  ds_len : result Z;
  ds_getitem : Z -> result (option T)
}.
Arguments ds_len {T} _.
Arguments ds_getitem {T} _ _.

(** ** [RangeLazyMapDataset] *)

Module Range.

Record t : Type := {
  start : Z;
  stop : Z;
  step : Z
}.

(** [__init__(self, start, stop=None, step=1)] *)
Definition init (start_ : Z) (stop_ : option Z) (step_ : Z) : t :=
  {| start := match stop_ with None => 0 | Some _ => start_ end;
     stop := match stop_ with None => start_ | Some s => s end;
     step := step_ |}.

(** [_length] *)
Definition _length (self : t) : result Z :=
  py_range_len (start self) (stop self) (step self).

(** [__len__] *)
Definition len (self : t) : result Z := _length self.

(** [__getitem__] *)
Definition getitem (self : t) (index : Z) : result Z :=
  l <- _length self ;;
  m <- py_mod index l ;;
  Ok (start self + m * step self).

Definition as_dataset (self : t) : LazyMapDataset Z :=
  {| ds_len := len self;
     ds_getitem := fun i => v <- getitem self i ;; Ok (Some v) |}.

End Range.

(** ** [ShardLazyDataset]

    [sharding.even_split] is not part of this file; the constructor takes
    it as an argument, and the theorems below are about every pair
    [(_start, _end)] it could return. *)

Module Shard.

Record ShardOptions : Type := {
  shard_index : Z;
  shard_count : Z;
  drop_remainder : bool
}.

Record t (T : Type) : Type := {
  _parent : LazyMapDataset T;
  _start : Z;
  _end : Z
}.
Arguments _parent {T} _.
Arguments _start {T} _.
Arguments _end {T} _.

(** [__init__] *)
Definition init {T : Type} (even_split : Z -> ShardOptions -> Z * Z)
    (parent : LazyMapDataset T) (shard_options : ShardOptions) : result (t T) :=
  n <- py_len (ds_len parent) ;;
  let '(s, e) := even_split n shard_options in
  Ok {| _parent := parent; _start := s; _end := e |}.

(** [__len__] *)
Definition len {T : Type} (self : t T) : result Z :=
  Ok (_end self - _start self).

(** [__getitem__] *)
Definition getitem {T : Type} (self : t T) (index : Z) : result (option T) :=
  n <- py_len (len self) ;;
  epoch <- py_floordiv index n ;;
  n' <- py_len (len self) ;;
  index_in_epoch <- py_mod index n' ;;
  N <- py_len (ds_len (_parent self)) ;;
  ds_getitem (_parent self) (epoch * N + index_in_epoch + _start self).

Definition as_dataset {T : Type} (self : t T) : LazyMapDataset T :=
  {| ds_len := len self; ds_getitem := getitem self |}.

End Shard.

(** ** [PrefetchLazyDatasetIterator]

    The thread pool runs [dataset.__getitem__] at the submitted indices.
    [__getitem__] is deterministic and does not touch the iterator, so a
    future is modelled by the index it was submitted with, and
    [future.result()] by [ds_getitem] at that index.  The ghost field
    [submitted] logs, in submission order, every index handed to
    [__getitem__] (by [executor.submit] or by a direct subscript). *)

Module ReadOptions.
Record t : Type := {
  prefetch_buffer_size : Z;
  num_threads : Z
}.
End ReadOptions.

Module Prefetch.

Record t (T : Type) : Type := {
  _dataset : LazyMapDataset T;
  _dataset_length : Z;
  _next_index : Z;
  _buffer : option (list Z);
  _prefetch_buffer_size : Z;
  _allow_nones : bool;
  submitted : list Z
}.
Arguments _dataset {T} _.
Arguments _dataset_length {T} _.
Arguments _next_index {T} _.
Arguments _buffer {T} _.
Arguments _prefetch_buffer_size {T} _.
Arguments _allow_nones {T} _.
Arguments submitted {T} _.

Section Iterator.
Context {T : Type}.

(** [__init__]; [ThreadPoolExecutor(n)] raises [ValueError] when [n <= 0]. *)
Definition init (dataset : LazyMapDataset T) (read_options : ReadOptions.t)
    (allow_nones : bool) : result (t T) :=
  n <- py_len (ds_len dataset) ;;
  let self :=
    {| _dataset := dataset;
       _dataset_length := n;
       _next_index := 0;
       _buffer := None;
       _prefetch_buffer_size := ReadOptions.prefetch_buffer_size read_options;
       _allow_nones := allow_nones;
       submitted := [] |} in
  if 0 <? ReadOptions.prefetch_buffer_size read_options then
    if ReadOptions.num_threads read_options <=? 0 then Raise ValueError
    else Ok self
  else Ok self.

Definition with_buffer (self : t T) (buffer : option (list Z)) (log : list Z) : t T :=
  {| _dataset := _dataset self;
     _dataset_length := _dataset_length self;
     _next_index := _next_index self;
     _buffer := buffer;
     _prefetch_buffer_size := _prefetch_buffer_size self;
     _allow_nones := _allow_nones self;
     submitted := log |}.

Definition with_next_index (self : t T) (i : Z) : t T :=
  {| _dataset := _dataset self;
     _dataset_length := _dataset_length self;
     _next_index := i;
     _buffer := _buffer self;
     _prefetch_buffer_size := _prefetch_buffer_size self;
     _allow_nones := _allow_nones self;
     submitted := submitted self |}.

(** One pass through the body of [while True] in [__next__]. *)
Inductive iteration : Type :=
  | Return (element : option T) (self : t T)
  | Continue (self : t T)
  | Break (self : t T)
  | Throw (e : exn) (self : t T).

(** [if self._allow_nones or element is not None: return element] after
    [self._next_index += 1] *)
Definition deliver (self : t T) (element : option T) : iteration :=
  let self := with_next_index self (_next_index self + 1) in
  if _allow_nones self || bool_decide (is_Some element)
  then Return element self
  else Continue self.

Definition loop_body (self : t T) : iteration :=
  if _next_index self =? _dataset_length self then Break self
  else if 0 <? _prefetch_buffer_size self then
    (* [if not self._buffer]: [None] and the empty deque are both falsy *)
    let self :=
      match _buffer self with
      | None | Some [] =>
          let indices :=
            py_range (_next_index self)
              (Z.min (_next_index self + _prefetch_buffer_size self)
                     (_dataset_length self)) in
          with_buffer self (Some indices) (submitted self ++ indices)
      | Some _ => self
      end in
    match _buffer self with
    | None | Some [] => Throw IndexError self (* [popleft] on an empty deque *)
    | Some (element :: rest) =>
        let self := with_buffer self (Some rest) (submitted self) in
        let self :=
          if _next_index self + _prefetch_buffer_size self <? _dataset_length self
          then
            let i := _next_index self + _prefetch_buffer_size self in
            with_buffer self (Some (rest ++ [i])) (submitted self ++ [i])
          else self in
        match ds_getitem (_dataset self) element with
        | Raise e => Throw e self
        | Ok element => deliver self element
        end
    end
  else
    let self := with_buffer self (_buffer self) (submitted self ++ [_next_index self]) in
    match ds_getitem (_dataset self) (_next_index self) with
    | Raise e => Throw e self
    | Ok element => deliver self element
    end.

Inductive next_result : Type :=
  | Yield (element : option T) (self : t T)
  | StopIteration (self : t T)
  | Raised (e : exn) (self : t T).

(** [while True: ...] followed by [raise StopIteration]; [None] when the
    loop has not left within [fuel] passes. *)
Fixpoint next_loop (fuel : nat) (self : t T) : option next_result :=
  match fuel with
  | O => None
  | S fuel =>
      match loop_body self with
      | Return element self => Some (Yield element self)
      | Continue self => next_loop fuel self
      | Break self => Some (StopIteration self)
      | Throw e self => Some (Raised e self)
      end
  end.

(** [__next__]: the loop leaves within [_dataset_length - _next_index + 1]
    passes whenever [_next_index <= _dataset_length] ([next_loop_enough]). *)
Definition next (self : t T) : option next_result :=
  next_loop (S (Z.to_nat (_dataset_length self - _next_index self))) self.

(** [get_state] *)
Definition get_state (self : t T) : gmap string Z :=
  {[ "next_index" := _next_index self ]}.

(** [set_state] *)
Definition set_state (self : t T) (state : gmap string Z) : result (t T) :=
  match state !! "next_index" with
  | None => Raise KeyError
  | Some i =>
      let self := with_next_index self i in
      Ok (if 0 <? _prefetch_buffer_size self
          then with_buffer self None (submitted self)
          else self)
  end.

(** How a consumer's loop over the iterator ends. *)
Inductive outcome : Type :=
  | Exhausted
  | Failed (e : exn)
  | Unfinished.

(** [for element in it: ...]: the elements delivered until
    [StopIteration] or an exception, within [fuel] calls of [__next__]. *)
Fixpoint consume (fuel : nat) (self : t T) : list (option T) * outcome * t T :=
  match fuel with
  | O => ([], Unfinished, self)
  | S fuel =>
      match next self with
      | None => ([], Unfinished, self)
      | Some (Yield element self) =>
          let '(l, o, s) := consume fuel self in (element :: l, o, s)
      | Some (StopIteration self) => ([], Exhausted, self)
      | Some (Raised e self) => ([], Failed e, self)
      end
  end.

(** [k] calls of [__next__] that each deliver an element. *)
Fixpoint advance (k : nat) (self : t T) : option (list (option T) * t T) :=
  match k with
  | O => Some ([], self)
  | S k =>
      match next self with
      | Some (Yield element self) =>
          match advance k self with
          | Some (l, s) => Some (element :: l, s)
          | None => None
          end
      | _ => None
      end
  end.

(** The elements of [dataset] at [i], [i+1], ..., [i+n-1], read one after
    the other: what a plain indexed loop sees, [None]s dropped unless
    [allow_nones]. *)
Fixpoint read_from (dataset : LazyMapDataset T) (allow_nones : bool)
    (i : Z) (n : nat) : list (option T) * outcome :=
  match n with
  | O => ([], Exhausted)
  | S n =>
      match ds_getitem dataset i with
      | Raise e => ([], Failed e)
      | Ok element =>
          let '(l, o) := read_from dataset allow_nones (i + 1) n in
          if allow_nones || bool_decide (is_Some element)
          then (element :: l, o) else (l, o)
      end
  end.

(** *** Invariants of the iterator *)

(** The end of the prefetch window, [min(next_index + B, length)]. *)
Definition window (self : t T) : Z :=
  Z.min (_next_index self + _prefetch_buffer_size self) (_dataset_length self).

(** In buffered mode a non-empty buffer holds the futures of the window,
    in order; the synchronous mode never looks at the buffer. *)
Definition buffer_ok (self : t T) : Prop :=
  0 < _prefetch_buffer_size self ->
  match _buffer self with
  | None | Some [] => True
  | Some l => l = py_range (_next_index self) (window self)
  end.

Definition wf (self : t T) : Prop :=
  0 <= _next_index self <= _dataset_length self /\ buffer_ok self.

(** What has been submitted so far, for an iterator that was never
    restored: everything below the cursor, or below the window's end. *)
Definition logged (self : t T) : Prop :=
  if 0 <? _prefetch_buffer_size self then
    match _buffer self with
    | None | Some [] => submitted self = py_range 0 (_next_index self)
    | Some _ => submitted self = py_range 0 (window self)
    end
  else submitted self = py_range 0 (_next_index self).

(** Every submitted index so far lies below the length, and they are
    [0, 1, ..., m-1] in this order. *)
Definition log_prefix (self : t T) : Prop :=
  exists m, 0 <= m <= _dataset_length self /\ submitted self = py_range 0 m.

(** What is left to read from the cursor to the end of the epoch. *)
Definition remaining (self : t T) : list (option T) * outcome :=
  read_from (_dataset self) (_allow_nones self) (_next_index self)
    (Z.to_nat (_dataset_length self - _next_index self)).

Definition same_config (s1 s2 : t T) : Prop :=
  _dataset s1 = _dataset s2 /\
  _dataset_length s1 = _dataset_length s2 /\
  _prefetch_buffer_size s1 = _prefetch_buffer_size s2 /\
  _allow_nones s1 = _allow_nones s2.

End Iterator.
End Prefetch.

(** ** [MultiprocessPrefetchLazyIterDataset]: construction *)

Module Multiprocess.

(** A node of the dataset DAG as [_validate_parent_dataset] sees it: is it
    an instance of [MultiprocessPrefetchLazyIterDataset], and which are
    its [parents].  The walk keeps no visited set, so a node shared by
    several children is visited once per path; the DAG is therefore given
    unfolded, as a tree. *)
#[warnings="-register-all"]
Inductive dataset : Type :=
  | Node (is_multiprocess_prefetch : bool) (parents : list dataset).

Record MultiprocessingOptions : Type := {
  num_workers : Z
}.

Fixpoint size (d : dataset) : nat :=
  match d with
  | Node _ ps => S (list_sum (map size ps))
  end.

Definition total_size (l : list dataset) : nat := list_sum (map size l).

(** [_validate_parent_dataset]: the [while to_check] loop; [pop(0)] takes
    the head and [extend] appends the parents at the back. *)
Equations? validate_loop (to_check : list dataset) : result unit
    by wf (total_size to_check) lt :=
  validate_loop [] := Ok tt;
  validate_loop (Node true _ :: _) := Raise ValueError;
  validate_loop (Node false ps :: rest) := validate_loop (rest ++ ps).
Proof.
  unfold total_size. rewrite map_app, list_sum_app.
  change (list_sum (map size (Node false ps :: rest)))
    with (S (list_sum (map size ps)) + list_sum (map size rest))%nat.
  lia.
Qed.

(** [_validate_parent_dataset], with [to_check = [self._parent]] *)
Definition _validate_parent_dataset (parent : dataset) : result unit :=
  validate_loop [parent].

(** [__init__] *)
Definition init (parent : dataset) (multiprocessing_options : MultiprocessingOptions)
    : result dataset :=
  if num_workers multiprocessing_options <? 1 then Raise ValueError
  else
    _ <- _validate_parent_dataset parent ;;
    Ok (Node true [parent]).

(** The parent DAG contains a process-prefetch node: the parent itself
    or, through [parents], one of its ancestors. *)
Fixpoint contains_multiprocess (d : dataset) : bool :=
  match d with
  | Node mp ps => mp || existsb contains_multiprocess ps
  end.

End Multiprocess.

(** ** State records as Python objects

    [get_state] returns a [dict].  A dict is a mutable object, and two
    names may refer to the same one; so state records live in a heap and
    are passed around by reference.  The values stored in the records
    modelled here are [int]s, which are immutable. *)

Module Heap.

Definition loc : Type := positive.

Abbreviation dict := (gmap string Z).
Abbreviation t := (gmap positive (gmap string Z)).

(** a new dict object *)
Definition alloc (h : t) (d : dict) : loc * t :=
  let l := fresh (dom h) in (l, <[l := d]> h).

(** [d[k] = v], on the object at [l] *)
Definition setitem (h : t) (l : loc) (k : string) (v : Z) : t :=
  alter (fun d => <[k := v]> d) l h.

End Heap.

(** [PrefetchLazyDatasetIterator.get_state], as a call that returns an
    object: the dict display builds a new dict each time. *)
Definition Prefetch_get_state_object {T : Type} (self : Prefetch.t T) (h : Heap.t)
    : Heap.loc * Heap.t :=
  Heap.alloc h (Prefetch.get_state self).

(** ** [ThreadPrefetchLazyDatasetIterator]

    The producer thread is the only user of the delegate [_iterator], and
    what it puts in the queue does not depend on when it runs; so the
    queue is modelled by the producer itself, run one tuple at a time when
    the consumer calls [buffer.get()].  The field [_iterator] of the model
    is thus the delegate as it was when it produced the last tuple the
    consumer took; in a run the producer thread may be up to
    [prefetch_buffer_size] tuples ahead of that.  The model tells which
    tuples the consumer gets and in which order, not how far the delegate
    has advanced at a given moment.  The delegate is a
    [PrefetchLazyDatasetIterator], what [to_iter_dataset] of a map dataset
    gives. *)

Module ThreadPrefetch.

Inductive error : Type :=
  | StopIteration
  | Exn (e : exn).

(** How a call ends; [Blocks]: [buffer.get()] waits for a producer that
    has returned. *)
Inductive call (A : Type) : Type :=
  | Returns (a : A)
  | Raises (err : error)
  | Blocks.
Arguments Returns {A} a.
Arguments Raises {A} err.
Arguments Blocks {A}.

(** first component of a queued tuple *)
Inductive payload (T : Type) : Type :=
  | INITIAL_STATE_SENTINEL
  | Element (element : option T).
Arguments INITIAL_STATE_SENTINEL {T}.
Arguments Element {T} element.

(** [(element, state, None)] or [(None, None, e)] *)
Inductive entry (T : Type) : Type :=
  | Item (p : payload T) (state : Heap.loc)
  | Err (err : error).
Arguments Item {T} p state.
Arguments Err {T} err.

Inductive producer : Type :=
  | NotStarted                      (* [_producer_running is None] *)
  | Running (initial_pending : bool) (* the sentinel tuple is still to come *)
  | Returned.                       (* the producer put an error and left *)

Record t (T : Type) : Type := {
  _iterator : Prefetch.t T;
  _prefetch_buffer_size : Z;
  _state : option Heap.loc;
  _closed : bool;
  _producer : producer
}.
Arguments _iterator {T} _.
Arguments _prefetch_buffer_size {T} _.
Arguments _state {T} _.
Arguments _closed {T} _.
Arguments _producer {T} _.

Section Iterator.
Context {T : Type}.

(** [__init__], with [parent_iterator = dataset.__iter__()] *)
Definition init (parent_iterator : Prefetch.t T) (prefetch_buffer_size : Z) : t T :=
  {| _iterator := parent_iterator;
     _prefetch_buffer_size := prefetch_buffer_size;
     _state := None;
     _closed := false;
     _producer := NotStarted |}.

(** [_start_producer(None)] *)
Definition _start_producer_None (self : t T) : call (t T) :=
  if _closed self then Raises (Exn ValueError)
  else match _producer self with
       | NotStarted =>
           Returns {| _iterator := _iterator self;
                      _prefetch_buffer_size := _prefetch_buffer_size self;
                      _state := None;
                      _closed := _closed self;
                      _producer := Running true |}
       | _ => Raises (Exn ValueError)
       end.

(** [start_prefetch] *)
Definition start_prefetch (self : t T) : call (t T) :=
  if _closed self then Raises (Exn ValueError)
  else match _producer self with
       | NotStarted => _start_producer_None self
       | _ => Returns self
       end.

Definition with_producer (self : t T) (it : Prefetch.t T) (p : producer) : t T :=
  {| _iterator := it;
     _prefetch_buffer_size := _prefetch_buffer_size self;
     _state := _state self;
     _closed := _closed self;
     _producer := p |}.

Definition with_state (self : t T) (state : Heap.loc) : t T :=
  {| _iterator := _iterator self;
     _prefetch_buffer_size := _prefetch_buffer_size self;
     _state := Some state;
     _closed := _closed self;
     _producer := _producer self |}.

(** [self._buffer.get()]: the next tuple [_producer] puts.  Each state in
    a tuple is the object [self._iterator.get_state()] returned. *)
Definition buffer_get (self : t T) (h : Heap.t) : call (entry T * t T * Heap.t) :=
  match _producer self with
  | NotStarted => Raises (Exn AssertionError)
  | Returned => Blocks
  | Running true =>
      let '(l, h) := Prefetch_get_state_object (_iterator self) h in
      Returns (Item INITIAL_STATE_SENTINEL l,
               with_producer self (_iterator self) (Running false), h)
  | Running false =>
      match Prefetch.next (_iterator self) with
      | None => Blocks
      | Some (Prefetch.Yield element it) =>
          let '(l, h) := Prefetch_get_state_object it h in
          Returns (Item (Element element) l, with_producer self it (Running false), h)
      | Some (Prefetch.StopIteration it) =>
          Returns (Err StopIteration, with_producer self it Returned, h)
      | Some (Prefetch.Raised e it) =>
          Returns (Err (Exn e), with_producer self it Returned, h)
      end
  end.

(** [__next__]; it calls itself once, after the sentinel tuple. *)
Fixpoint next_loop (fuel : nat) (self : t T) (h : Heap.t)
    : call (option T * t T * Heap.t) :=
  match fuel with
  | O => Blocks
  | S fuel =>
      match start_prefetch self with
      | Returns self =>
          match buffer_get self h with
          | Returns (Err err, self, h) => Raises err
          | Returns (Item p state, self, h) =>
              match _state self, p with
              | None, INITIAL_STATE_SENTINEL =>
                  next_loop fuel (with_state self state) h
              | None, Element _ => Raises (Exn AssertionError)
              | Some _, INITIAL_STATE_SENTINEL => Raises (Exn AssertionError)
              | Some _, Element element =>
                  Returns (element, with_state self state, h)
              end
          | Raises err => Raises err
          | Blocks => Blocks
          end
      | Raises err => Raises err
      | Blocks => Blocks
      end
  end.

Definition next (self : t T) (h : Heap.t) : call (option T * t T * Heap.t) :=
  next_loop 2 self h.

(** [get_state]: the object returned is the one [self._state] refers to. *)
Definition get_state (self : t T) (h : Heap.t) : call (Heap.loc * t T * Heap.t) :=
  match start_prefetch self with
  | Returns self =>
      match _state self with
      | None =>
          match buffer_get self h with
          | Returns (Err err, self, h) => Raises err
          | Returns (Item (Element _) state, self, h) => Raises (Exn AssertionError)
          | Returns (Item INITIAL_STATE_SENTINEL state, self, h) =>
              Returns (state, with_state self state, h)
          | Raises err => Raises err
          | Blocks => Blocks
          end
      | Some state => Returns (state, self, h)
      end
  | Raises err => Raises err
  | Blocks => Blocks
  end.

End Iterator.
End ThreadPrefetch.

(** ** The single-bin streaming packer

    [transformations/packing.py] is not among the sources; only its test
    [packing_test.py] is.  The packer below is written from the words of
    section 4.E.1 of the specification, step by step, and run on the
    inputs of the tests. *)

Module Packing.

Abbreviation element := (gmap string (list Z)).
Abbreviation length_struct := (gmap string nat).
Abbreviation record := (gmap string (list Z)).

(** One feature of the bin in progress: its values, and for each value
    the segment id and the position within its source sequence. *)
Record packed_feature : Type := {
  values : list Z;
  segment_ids : list Z;
  positions : list Z
}.

Record bin : Type := {
  features : gmap string packed_feature;
  num_segments : nat
}.

Definition empty_feature : packed_feature :=
  {| values := []; segment_ids := []; positions := [] |}.

Definition empty_bin : bin :=
  {| features := ∅; num_segments := 0 |}.

Definition feature (E : element) (f : string) : list Z := default [] (E !! f).

Definition bin_feature (b : bin) (f : string) : packed_feature :=
  default empty_feature (features b !! f).

(** Modelled from the spec: [used_f], the length already used in feature
    [f] of the bin (the packer's source is missing). *)
Definition used (b : bin) (f : string) : nat := length (values (bin_feature b f)).

(** Modelled from the spec: the fit test of step 2,
    [used_f + len_f(E) <= T_f]. *)
Definition fits (b : bin) (E : element) (f : string) (t : nat) : bool :=
  (used b f + length (feature E f) <=? t)%nat.

(** Modelled from the spec: step 1, "E alone fills every feature exactly
    to its target length". *)
Definition fully_packed (T : length_struct) (E : element) : bool :=
  bool_decide (map_Forall (fun f t => length (feature E f) = t) T).

(** Modelled from the spec: step 2, "every feature fits". *)
Definition all_fit (T : length_struct) (b : bin) (E : element) : bool :=
  bool_decide (map_Forall (fun f t => fits b E f t = true) T).

(** Modelled from the spec: appending to one feature, "independently
    truncated to its remaining capacity" (step 5, and 4.E.3 for an
    element longer than the target length); the values added get the
    element's segment id and their positions within the element. *)
Definition append_feature (t : nat) (sid : nat) (fb : packed_feature) (xs : list Z)
    : packed_feature :=
  let new := take (t - length (values fb)) xs in
  {| values := values fb ++ new;
     segment_ids := segment_ids fb ++ replicate (length new) (Z.of_nat sid);
     positions := positions fb ++ map Z.of_nat (seq 0 (length new)) |}.

(** Modelled from the spec: "append and record a new segment id" (step 2),
    feature by feature over the length structure. *)
Definition append (T : length_struct) (b : bin) (E : element) : bin :=
  let sid := S (num_segments b) in
  {| features :=
       map_imap (fun f t => Some (append_feature t sid (bin_feature b f) (feature E f))) T;
     num_segments := sid |}.

(** Modelled from the spec: "tail-padded with 0". *)
Definition pad (t : nat) (l : list Z) : list Z := l ++ replicate (t - length l) 0.

(** Modelled from the spec: the output record of a bin, with [f],
    [f_segment_ids] and [f_positions] for every feature [f]. *)
Definition finalize (T : length_struct) (b : bin) : record :=
  map_fold
    (fun f t out =>
       <[f := pad t (values (bin_feature b f))]>
         (<[f +:+ "_segment_ids" := pad t (segment_ids (bin_feature b f))]>
            (<[f +:+ "_positions" := pad t (positions (bin_feature b f))]> out)))
    ∅ T.

(** Modelled from the spec: the algorithm per incoming element [E] of
    section 4.E.1.  Step 1 yields a fully packed [E] at once and leaves
    the bin alone; step 2 appends when every feature fits; step 3, when
    the append fails, yields the bin (if it holds anything) and starts a
    new one with [E], cut to the target lengths (step 5, 4.E.3). *)
Definition step (T : length_struct) (b : bin) (E : element) : list record * bin :=
  if fully_packed T E then ([finalize T (append T empty_bin E)], b)
  else if all_fit T b E then ([], append T b E)
  else ((if num_segments b is O then [] else [finalize T b]), append T empty_bin E).

(** Modelled from the spec: the packer over the whole input; step 4
    flushes the bin when the input is exhausted. *)
Fixpoint pack (T : length_struct) (b : bin) (input : list element) : list record :=
  match input with
  | [] => if num_segments b is O then [] else [finalize T b]
  | E :: input =>
      let '(out, b) := step T b E in out ++ pack T b input
  end.

Definition SingleBinPack (T : length_struct) (input : list element) : list record :=
  pack T empty_bin input.

End Packing.

Module PackingExamples.
Import Packing.


Definition example (inputs targets : list Z) : element :=
  {[ "inputs" := inputs; "targets" := targets ]}.

(** [input_elements] of
    [test_pack_multiple_features_different_sequences_length] *)
Definition input_elements : list element :=
  [ example [1; 2; 3; 4] [10; 20];
    example [5; 6] [30; 40; 50];
    example [11; 12; 13; 14] [31; 41; 51];
    example [7] [60] ].


(** the six fields of a record of two features *)
Definition show (r : record) :=
  (r !! "inputs", r !! "inputs_segment_ids", r !! "inputs_positions",
   r !! "targets", r !! "targets_segment_ids", r !! "targets_positions").

End PackingExamples.



(** ** [PrefetchLazyIterDataset] and [to_iter_dataset] *)

Module IterDataset.

Record t (T : Type) : Type := {
  _parent : LazyMapDataset T;
  _read_options : ReadOptions.t;
  _allow_nones : bool
}.
Arguments _parent {T} _.
Arguments _read_options {T} _.
Arguments _allow_nones {T} _.

(** [PrefetchLazyIterDataset.__iter__] *)
Definition iter {T : Type} (self : t T) : result (Prefetch.t T) :=
  Prefetch.init (_parent self) (_read_options self) (_allow_nones self).

(** [RangeLazyMapDataset.to_iter_dataset]:
    [read_options or ReadOptions(prefetch_buffer_size=0)].  The default of
    [num_threads] is set in [grain_options], which is not part of this
    file; it is the argument [default_num_threads]. *)
Definition Range_to_iter_dataset (default_num_threads : Z) (self : Range.t)
    (read_options : option ReadOptions.t) (allow_nones : bool) : t Z :=
  {| _parent := Range.as_dataset self;
     _read_options :=
       match read_options with
       | Some o => o
       | None => {| ReadOptions.prefetch_buffer_size := 0;
                    ReadOptions.num_threads := default_num_threads |}
       end;
     _allow_nones := allow_nones |}.

End IterDataset.

(** The DAG below [q] contains [d]: [d] is [q] itself or is reached from
    [q] through [parents]. *)
Inductive reaches : Multiprocess.dataset -> Multiprocess.dataset -> Prop :=
  | reaches_self (d : Multiprocess.dataset) : reaches d d
  | reaches_parent (mp : bool) (ps : list Multiprocess.dataset)
      (p d : Multiprocess.dataset) :
      In p ps -> reaches p d -> reaches (Multiprocess.Node mp ps) d.

(** ** [MultiprocessPrefetchLazyDatasetIterator]: the record of the
    workers' progress

    The pool of worker processes ([grain_pool]) and the shared-memory
    arrays are not part of this file.  What the pool hands to [__next__]
    (an element, the state recorded with it or [None], and the index of
    the worker it came from) is an argument, and so are the two
    shared-memory copies.  The clock that decides when a worker records
    its state is an arbitrary function [clock]: [clock k] tells whether
    [_RECORD_STATE_INTERVAL_S] seconds have passed when the worker yields
    its [k]-th element.  The parent is a [PrefetchLazyIterDataset]. *)

Module MultiprocessIterator.

(** [str(i)] *)
Definition str (i : Z) : string := pretty i.

(** [self._state], with its keys [_WORKERS_STATE], [_ITERATIONS_TO_SKIP]
    and [_LAST_WORKER_INDEX] as fields *)
Record state : Type := {
  workers_state : gmap string (gmap string Z);
  iterations_to_skip : gmap string Z;
  last_worker_index : Z
}.

Definition result_to_option {A : Type} (r : result A) : option A :=
  match r with
  | Ok a => Some a
  | Raise _ => None
  end.

Section Iterator.
Context {T : Type}.

(** the [for i in range(num_workers)] loop of [__init__] *)
Fixpoint init_loop (parent : IterDataset.t T) (indices : list Z)
    (workers_state : gmap string (gmap string Z))
    (iterations_to_skip : gmap string Z)
    : result (gmap string (gmap string Z) * gmap string Z) :=
  match indices with
  | [] => Ok (workers_state, iterations_to_skip)
  | i :: indices =>
      it <- IterDataset.iter parent ;;
      init_loop parent indices
        (<[str i := Prefetch.get_state it]> workers_state)
        (<[str i := 0]> iterations_to_skip)
  end.

(** [__init__]: the initial [self._state] *)
Definition init (parent : IterDataset.t T)
    (multiprocessing_options : Multiprocess.MultiprocessingOptions) : result state :=
  r <- init_loop parent
         (py_range 0 (Multiprocess.num_workers multiprocessing_options)) ∅ ∅ ;;
  Ok {| workers_state := r.1;
        iterations_to_skip := r.2;
        last_worker_index := -1 |}.

(** [__next__], from the tuple [(result, state)] the pool yields and the
    [worker_index] it reports: the new [self._state] and the element
    returned. *)
Definition next (open_struct_from_shm : option T -> option T) (self : state)
    (element : option T) (state : option (gmap string Z)) (worker_index : Z)
    : result (option T * MultiprocessIterator.state) :=
  match state with
  | None =>
      match iterations_to_skip self !! str worker_index with
      | None => Raise KeyError
      | Some n =>
          Ok (open_struct_from_shm element,
              {| workers_state := workers_state self;
                 iterations_to_skip :=
                   <[str worker_index := n + 1]> (iterations_to_skip self);
                 last_worker_index := worker_index |})
      end
  | Some state =>
      Ok (open_struct_from_shm element,
          {| workers_state := <[str worker_index := state]> (workers_state self);
             iterations_to_skip := <[str worker_index := 0]> (iterations_to_skip self);
             last_worker_index := worker_index |})
  end.

(** the worker index the pool starts from, in [_create_iterator_context] *)
Definition first_worker (self : state)
    (multiprocessing_options : Multiprocess.MultiprocessingOptions) : result Z :=
  py_mod (last_worker_index self + 1) (Multiprocess.num_workers multiprocessing_options).

(** [get_element_producer_fn], up to the streaming loop: the worker's
    iterator restored to its recorded state and advanced past the
    iterations to skip.  [sliced_parent] is the parent after
    [set_parent_maps_slice(slice(worker_index, None, worker_count))];
    [None] when a step raises. *)
Definition start_worker (sliced_parent : IterDataset.t T) (self : state)
    (worker_index : Z) : option (Prefetch.t T) :=
  worker_state ← workers_state self !! str worker_index;
  it ← result_to_option (IterDataset.iter sliced_parent);
  it ← result_to_option (Prefetch.set_state it worker_state);
  n ← iterations_to_skip self !! str worker_index;
  snd <$> Prefetch.advance (Z.to_nat n) it.

(** [get_element_producer_fn], the streaming loop [for element in it]:
    the tuples the worker yields, the [k]-th with the state after it when
    the clock says so. *)
Fixpoint stream (copy_struct_to_shm : option T -> option T) (clock : nat -> bool)
    (fuel : nat) (k : nat) (it : Prefetch.t T)
    : list (option T * option (gmap string Z)) :=
  match fuel with
  | O => []
  | S fuel =>
      match Prefetch.next it with
      | Some (Prefetch.Yield element it) =>
          (copy_struct_to_shm element,
           if clock k then Some (Prefetch.get_state it) else None)
          :: stream copy_struct_to_shm clock fuel (S k) it
      | _ => []
      end
  end.

(** Calls of [__next__] in a row, on what the pool hands over. *)
Fixpoint run (open_struct_from_shm : option T -> option T) (self : state)
    (handed : list (option T * option (gmap string Z) * Z)) : result state :=
  match handed with
  | [] => Ok self
  | (element, state, worker_index) :: handed =>
      r <- next open_struct_from_shm self element state worker_index ;;
      run open_struct_from_shm r.2 handed
  end.

End Iterator.
End MultiprocessIterator.

(** ** More of [ThreadPrefetchLazyDatasetIterator] *)

Module ThreadPrefetchLoop.
Section Iterator.
Context {T : Type}.

(** [for element in it], on a thread-prefetch iterator: the elements
    delivered until an exception ([StopIteration] included), within
    [fuel] calls of [__next__]; a call that blocks leaves the loop
    unfinished. *)
Fixpoint consume (fuel : nat) (self : ThreadPrefetch.t T) (h : Heap.t)
    : list (option T) * Prefetch.outcome :=
  match fuel with
  | O => ([], Prefetch.Unfinished)
  | S fuel =>
      match ThreadPrefetch.next self h with
      | ThreadPrefetch.Returns (element, self, h) =>
          let '(l, o) := consume fuel self h in (element :: l, o)
      | ThreadPrefetch.Raises ThreadPrefetch.StopIteration => ([], Prefetch.Exhausted)
      | ThreadPrefetch.Raises (ThreadPrefetch.Exn e) => ([], Prefetch.Failed e)
      | ThreadPrefetch.Blocks => ([], Prefetch.Unfinished)
      end
  end.

(** [_stop_producer]: nothing to stop when no producer runs; otherwise
    the producer is told to stop and forgotten, with its buffer. *)
Definition _stop_producer (self : ThreadPrefetch.t T) : ThreadPrefetch.t T :=
  match ThreadPrefetch._producer self with
  | ThreadPrefetch.NotStarted => self
  | _ => ThreadPrefetch.with_producer self (ThreadPrefetch._iterator self)
           ThreadPrefetch.NotStarted
  end.

(** [close] *)
Definition close (self : ThreadPrefetch.t T) : ThreadPrefetch.t T :=
  _stop_producer
    {| ThreadPrefetch._iterator := ThreadPrefetch._iterator self;
       ThreadPrefetch._prefetch_buffer_size := ThreadPrefetch._prefetch_buffer_size self;
       ThreadPrefetch._state := ThreadPrefetch._state self;
       ThreadPrefetch._closed := true;
       ThreadPrefetch._producer := ThreadPrefetch._producer self |}.

(** The producer runs, the sentinel tuple has been taken, and a state is
    on record: the iterator after its first [__next__] or [get_state]. *)
Definition started (self : ThreadPrefetch.t T) : Prop :=
  ThreadPrefetch._closed self = false /\
  ThreadPrefetch._producer self = ThreadPrefetch.Running false /\
  is_Some (ThreadPrefetch._state self).

End Iterator.
End ThreadPrefetchLoop.

(** ** The registry of dataset functions

    [LazyMapDataset._functions] and [LazyIterDataset._functions] are two
    class-level dicts, one per class; [register_function] and
    [__getattr__] of either class work on its own dict.  A registered
    function takes the dataset first; [functools.partial(f, self)] is
    [f self]. *)

Module Registry.
Section Functions.
Context {Dataset Args Res : Type}.

(** [register_function] *)
Definition register_function (_functions : gmap string (Dataset -> Args -> Res))
    (name : string) (function : Dataset -> Args -> Res)
    : result (gmap string (Dataset -> Args -> Res)) :=
  match _functions !! name with
  | Some _ => Raise ValueError
  | None => Ok (<[name := function]> _functions)
  end.

(** [__getattr__]; [None] is the [AttributeError] *)
Definition getattr (_functions : gmap string (Dataset -> Args -> Res))
    (self : Dataset) (attribute_name : string) : option (Args -> Res) :=
  match _functions !! attribute_name with
  | Some function => Some (function self)
  | None => None
  end.

End Functions.
End Registry.

(** ** Concrete pipelines used to exercise the theorems *)

Module Examples.

(** [RangeLazyMapDataset(0, 5)] *)
Definition range5 : LazyMapDataset Z := Range.as_dataset (Range.init 0 (Some 5) 1).

(** A sparse dataset of length 4, as a filter leaves it: odd positions
    are [None]. *)
Definition sparse4 : LazyMapDataset Z :=
  {| ds_len := Ok 4;
     ds_getitem := fun i => Ok (if Z.even i then Some (10 * i) else None) |}.

Definition options (B threads : Z) : ReadOptions.t :=
  {| ReadOptions.prefetch_buffer_size := B; ReadOptions.num_threads := threads |}.

(** A just-built iterator. *)
Definition fresh (ds : LazyMapDataset Z) (L B : Z) (allow : bool) : Prefetch.t Z :=
  {| Prefetch._dataset := ds;
     Prefetch._dataset_length := L;
     Prefetch._next_index := 0;
     Prefetch._buffer := None;
     Prefetch._prefetch_buffer_size := B;
     Prefetch._allow_nones := allow;
     Prefetch.submitted := [] |}.

(** [range5] with a window of 2, after two calls of [__next__]. *)
Definition range5_after_2 : Prefetch.t Z :=
  {| Prefetch._dataset := range5;
     Prefetch._dataset_length := 5;
     Prefetch._next_index := 2;
     Prefetch._buffer := Some [2; 3];
     Prefetch._prefetch_buffer_size := 2;
     Prefetch._allow_nones := false;
     Prefetch.submitted := [0; 1; 2; 3] |}.

(** [ThreadPrefetchLazyIterDataset(RangeLazyMapDataset(0, 5).to_iter_dataset(),
    prefetch_buffer_size=2).__iter__()]; [to_iter_dataset] of a Range
    reads synchronously. *)
Definition range5_thread_prefetch : ThreadPrefetch.t Z :=
  ThreadPrefetch.init (fresh range5 5 0 false) 2.

End Examples.

(** ** More concrete pipelines *)

Module MoreExamples.

(** A dataset of length 4 whose element 1 cannot be read. *)
Definition faulty4 : LazyMapDataset Z :=
  {| ds_len := Ok 4;
     ds_getitem := fun i => if i =? 1 then Raise (OtherError 7) else Ok (Some i) |}.

(** An iterator as it stands in the middle of a run. *)
Definition at_index (ds : LazyMapDataset Z) (L i : Z) (buffer : option (list Z))
    (B : Z) (allow : bool) (log : list Z) : Prefetch.t Z :=
  {| Prefetch._dataset := ds;
     Prefetch._dataset_length := L;
     Prefetch._next_index := i;
     Prefetch._buffer := buffer;
     Prefetch._prefetch_buffer_size := B;
     Prefetch._allow_nones := allow;
     Prefetch.submitted := log |}.

(** [range(0, 5)] behind [to_iter_dataset()], and worker 0's share of it
    among two workers, [range(0, 5)[0::2]], which reads as
    [range(0, 5, 2)]. *)
Definition range5_iter : IterDataset.t Z :=
  {| IterDataset._parent := Examples.range5;
     IterDataset._read_options := Examples.options 0 1;
     IterDataset._allow_nones := false |}.

Definition range5_worker0 : IterDataset.t Z :=
  {| IterDataset._parent := Range.as_dataset (Range.init 0 (Some 5) 2);
     IterDataset._read_options := Examples.options 0 1;
     IterDataset._allow_nones := false |}.

Definition two_workers : Multiprocess.MultiprocessingOptions :=
  {| Multiprocess.num_workers := 2 |}.

Definition empty_state : MultiprocessIterator.state :=
  {| MultiprocessIterator.workers_state := ∅;
     MultiprocessIterator.iterations_to_skip := ∅;
     MultiprocessIterator.last_worker_index := -1 |}.

(** the state of a fresh process-prefetch iterator with two workers *)
Definition initial_state : MultiprocessIterator.state :=
  Eval vm_compute in
    match MultiprocessIterator.init range5_iter two_workers with
    | Ok st => st
    | Raise _ => empty_state
    end.

(** what the pool hands over: worker 0, worker 1, then worker 0 with a
    recorded state *)
Definition handed : list (option Z * option (gmap string Z) * Z) :=
  [ (Some 0, None, 0);
    (Some 1, None, 1);
    (Some 2, Some {[ "next_index" := 2 ]}, 0) ].

Definition state_after_handed : MultiprocessIterator.state :=
  Eval vm_compute in
    match MultiprocessIterator.run id initial_state handed with
    | Ok st => st
    | Raise _ => empty_state
    end.

(** and after one more tuple, from worker 1, without a state *)
Definition state_after_fourth : MultiprocessIterator.state :=
  Eval vm_compute in
    match MultiprocessIterator.next id state_after_handed (Some 3) None 1 with
    | Ok r => r.2
    | Raise _ => empty_state
    end.

(** worker 0 records its state with its second element only *)
Definition clock (k : nat) : bool := Nat.eqb k 1.

(** the first [__next__] of the thread-prefetch iterator over
    [range(0, 5)] *)
Definition thread_prefetch_first
    : option Z * ThreadPrefetch.t Z * Heap.t :=
  match ThreadPrefetch.next Examples.range5_thread_prefetch ∅ with
  | ThreadPrefetch.Returns r => r
  | _ => (None, Examples.range5_thread_prefetch, ∅)
  end.

End MoreExamples.

(** ** The specification's words for the length of a range *)

(** ⌈a / b⌉ over the rationals *)
Definition ceil_quotient (a b : Z) : Z :=
  Qround.Qceiling (QArith_base.Qdiv (QArith_base.inject_Z a) (QArith_base.inject_Z b)).

(** * Theorems about the random-access primitives *)

Lemma neg_div_ceil (d p : Z) :
  0 < p -> 0 < d -> - ((- d) / p) = (d - 1) / p + 1.
Proof.
  intros Hp Hd.
  pose proof (Z.div_mod (d - 1) p ltac:(lia)) as Hdm.
  pose proof (Z.mod_pos_bound (d - 1) p Hp) as Hb.
  set (q := (d - 1) / p) in *. set (r := (d - 1) mod p) in *.
  assert (Hq : (- d) / p = - (q + 1)).
  { symmetry. apply Z.div_unique with (r := p - r - 1); [left; lia | nia]. }
  lia.
Qed.

Lemma ceil_quotient_pos (a : Z) (p : positive) :
  ceil_quotient a (Z.pos p) = - ((- a) / Z.pos p).
Proof.
  unfold ceil_quotient, Qround.Qceiling, Qround.Qfloor, QArith_base.Qdiv,
    QArith_base.Qinv, QArith_base.Qmult, QArith_base.Qopp, QArith_base.inject_Z.
  cbn [QArith_base.Qnum QArith_base.Qden].
  rewrite Z.mul_1_r, Pos.mul_1_l. reflexivity.
Qed.

Lemma ceil_quotient_neg (a : Z) (p : positive) :
  ceil_quotient a (Z.neg p) = - (a / Z.pos p).
Proof.
  unfold ceil_quotient, Qround.Qceiling, Qround.Qfloor, QArith_base.Qdiv,
    QArith_base.Qinv, QArith_base.Qmult, QArith_base.Qopp, QArith_base.inject_Z.
  cbn [QArith_base.Qnum QArith_base.Qden].
  rewrite Pos.mul_1_l.
  replace (- (a * Z.neg 1)) with a by lia. reflexivity.
Qed.

Lemma py_range_len_nonneg (a b s l : Z) :
  py_range_len a b s = Ok l -> 0 <= l.
Proof.
  unfold py_range_len.
  destruct (s =? 0) eqn:Hs; [discriminate|].
  destruct (0 <? s) eqn:Hp; intros [= <-].
  - destruct (a <? b) eqn:Hab; [|lia].
    apply Z.ltb_lt in Hp, Hab.
    pose proof (Z.div_pos (b - a - 1) s ltac:(lia) Hp). lia.
  - destruct (b <? a) eqn:Hab; [|lia].
    apply Z.ltb_ge in Hp. apply Z.eqb_neq in Hs. apply Z.ltb_lt in Hab.
    pose proof (Z.div_pos (a - b - 1) (- s) ltac:(lia) ltac:(lia)). lia.
Qed.

Lemma py_range_len_ceil (a b s l : Z) :
  py_range_len a b s = Ok l -> 0 < l -> l = ceil_quotient (b - a) s.
Proof.
  unfold py_range_len.
  destruct (s =? 0) eqn:Hs; [discriminate|].
  destruct (0 <? s) eqn:Hp; intros [= <-] Hl.
  - destruct (a <? b) eqn:Hab; [|lia].
    apply Z.ltb_lt in Hp, Hab.
    destruct s as [|p|p]; try lia.
    rewrite ceil_quotient_pos, neg_div_ceil by lia. reflexivity.
  - destruct (b <? a) eqn:Hab; [|lia].
    apply Z.ltb_ge in Hp. apply Z.eqb_neq in Hs. apply Z.ltb_lt in Hab.
    destruct s as [|p|p]; try lia.
    rewrite ceil_quotient_neg.
    replace (- Z.neg p) with (Z.pos p) by lia.
    replace (b - a) with (- (a - b)) by lia.
    rewrite neg_div_ceil by lia. reflexivity.
Qed.

Lemma Range_getitem_pos (r : Range.t) (l i : Z) :
  Range.len r = Ok l -> 0 < l ->
  Range.getitem r i = Ok (Range.start r + (i mod l) * Range.step r).
Proof.
  unfold Range.len, Range.getitem. intros -> Hl. cbn.
  unfold py_mod. destruct (l =? 0) eqn:E; [apply Z.eqb_eq in E; lia|].
  reflexivity.
Qed.

Lemma Range_getitem_zero_length (r : Range.t) (i : Z) :
  Range.len r = Ok 0 -> Range.getitem r i = Raise ZeroDivisionError.
Proof.
  unfold Range.len, Range.getitem. intros ->. reflexivity.
Qed.

Lemma Shard_getitem_pos {T : Type} (sh : Shard.t T) (n N i : Z) :
  Shard.len sh = Ok n -> 0 < n ->
  py_len (ds_len (Shard._parent sh)) = Ok N ->
  Shard.getitem sh i =
    ds_getitem (Shard._parent sh) ((i / n) * N + i mod n + Shard._start sh).
Proof.
  unfold Shard.getitem. intros -> Hn ->. unfold py_len, py_floordiv, py_mod. cbn.
  destruct (Z.ltb_spec n 0); [lia|]. cbn.
  destruct (Z.eqb_spec n 0); [lia|]. reflexivity.
Qed.

(** C6: a Range built from [(start, stop, step)] with a positive number
    of elements has length ⌈(stop − start) / step⌉ (the ceiling of the
    rational quotient), and at every index [i >= 0] it returns
    [start + (i mod length) * step]. *)
Theorem Range_length_and_getitem (start stop step l : Z) :
  Range.len (Range.init start (Some stop) step) = Ok l ->
  0 < l ->
  l = ceil_quotient (stop - start) step /\
  forall i, 0 <= i ->
    Range.getitem (Range.init start (Some stop) step) i
    = Ok (start + (i mod l) * step).
Proof.
  intros Hlen Hl. split.
  - apply (py_range_len_ceil start stop step l); assumption.
  - intros i _. apply (Range_getitem_pos _ l i Hlen Hl).
Qed.

Lemma Range_length_and_getitem_witness :
  4 = ceil_quotient (10 - 0) 3 /\
  forall i, 0 <= i ->
    Range.getitem (Range.init 0 (Some 10) 3) i = Ok (0 + (i mod 4) * 3).
Proof.
  apply (Range_length_and_getitem 0 10 3 4).
  - reflexivity.
  - lia.
Defined.

Example Range_negative_step :
  Range.len (Range.init 10 (Some 0) (-3)) = Ok 4 /\
  ceil_quotient (0 - 10) (-3) = 4 /\
  Range.getitem (Range.init 10 (Some 0) (-3)) 5 = Ok 7.
Proof. vm_compute. auto. Qed.

(** C7: the claim that [at(i)] is defined at every non-negative index of
    every Range and Shard fails on the code at a Range of declared length
    0: [RangeLazyMapDataset(0, 0)[0]] computes [0 % 0] and raises
    [ZeroDivisionError]; a Shard of length 0 over [range(5)] does the same
    in [index // len(self)]. *)
Theorem Range_getitem_empty_raises :
  Range.len (Range.init 0 (Some 0) 1) = Ok 0 /\
  Range.getitem (Range.init 0 (Some 0) 1) 0 = Raise ZeroDivisionError /\
  Shard.len {| Shard._parent := Examples.range5;
               Shard._start := 5; Shard._end := 5 |} = Ok 0 /\
  Shard.getitem {| Shard._parent := Examples.range5;
                   Shard._start := 5; Shard._end := 5 |} 0
  = Raise ZeroDivisionError.
Proof. repeat split. Qed.

(** C8, as the specification states it, fails: index [-1] of
    [RangeLazyMapDataset(0, 10)] is not rejected, it returns the last
    element; nor does a Shard over it reject [-1]. *)
Lemma negative_index_not_rejected :
  -1 < 0 /\
  Range.getitem (Range.init 0 (Some 10) 1) (-1) = Ok 9 /\
  ~ rejected (Range.getitem (Range.init 0 (Some 10) 1) (-1)) /\
  ~ rejected
      (Shard.getitem
         {| Shard._parent := Range.as_dataset (Range.init 0 (Some 10) 1);
            Shard._start := 0; Shard._end := 5 |} (-1)).
Proof.
  split; [lia|]. split; [reflexivity|].
  split; intros [e He]; vm_compute in He; discriminate.
Qed.

(** C8, amended: neither Range nor Shard checks the sign of the index.  At
    a negative index a Range of positive length returns
    [start + (i mod length) * step], where the floor modulo lies in
    [0, length), so it is the element at the non-negative index
    [i mod length]; a Shard of positive length forwards
    [(i // len) * N + (i mod len) + start] to its parent and returns
    what the parent returns there. *)
Theorem negative_index_wraps {T : Type} (r : Range.t) (sh : Shard.t T)
    (l n N i : Z) :
  i < 0 ->
  Range.len r = Ok l -> 0 < l ->
  Shard.len sh = Ok n -> 0 < n ->
  py_len (ds_len (Shard._parent sh)) = Ok N ->
  Range.getitem r i = Ok (Range.start r + (i mod l) * Range.step r) /\
  0 <= i mod l < l /\
  Range.getitem r i = Range.getitem r (i mod l) /\
  Shard.getitem sh i =
    ds_getitem (Shard._parent sh) ((i / n) * N + i mod n + Shard._start sh).
Proof.
  intros _ Hl Hlpos Hn Hnpos HN.
  split; [apply Range_getitem_pos; assumption|].
  split; [apply Z.mod_pos_bound; assumption|].
  split; [|apply Shard_getitem_pos; assumption].
  rewrite !(Range_getitem_pos r l) by assumption.
  rewrite Z.mod_mod by lia. reflexivity.
Qed.

Lemma negative_index_wraps_witness :
  Range.getitem (Range.init 0 (Some 10) 1) (-3)
  = Ok (Range.start (Range.init 0 (Some 10) 1)
        + (-3 mod 10) * Range.step (Range.init 0 (Some 10) 1)) /\
  0 <= -3 mod 10 < 10 /\
  Range.getitem (Range.init 0 (Some 10) 1) (-3)
  = Range.getitem (Range.init 0 (Some 10) 1) (-3 mod 10) /\
  Shard.getitem {| Shard._parent := Examples.range5;
                   Shard._start := 1; Shard._end := 3 |} (-3)
  = ds_getitem Examples.range5 ((-3 / 2) * 5 + -3 mod 2 + 1).
Proof.
  apply (negative_index_wraps (Range.init 0 (Some 10) 1)
           {| Shard._parent := Examples.range5;
              Shard._start := 1; Shard._end := 3 |} 10 2 5 (-3)).
  - lia.
  - reflexivity.
  - lia.
  - reflexivity.
  - lia.
  - reflexivity.
Defined.

(** * Theorems about the thread-pool prefetch iterator *)

Lemma py_range_nil (a b : Z) : b <= a -> py_range a b = [].
Proof.
  intros H. unfold py_range. replace (Z.to_nat (b - a)) with O by lia. reflexivity.
Qed.

Lemma py_range_cons (a b : Z) : a < b -> py_range a b = a :: py_range (a + 1) b.
Proof.
  intros H. unfold py_range.
  replace (Z.to_nat (b - a)) with (S (Z.to_nat (b - (a + 1)))) by lia.
  cbn [seq map]. f_equal; [lia|].
  rewrite <- seq_shift, map_map. apply map_ext. intros k. lia.
Qed.

Lemma py_range_snoc (a b : Z) : a <= b -> py_range a b ++ [b] = py_range a (b + 1).
Proof.
  intros H. unfold py_range.
  replace (Z.to_nat (b + 1 - a)) with (Z.to_nat (b - a) + 1)%nat by lia.
  rewrite seq_app, map_app. cbn [seq map]. repeat f_equal. lia.
Qed.

Lemma py_range_app (a b c : Z) :
  a <= b -> b <= c -> py_range a b ++ py_range b c = py_range a c.
Proof.
  intros Hab Hbc. unfold py_range.
  replace (Z.to_nat (c - a)) with (Z.to_nat (b - a) + Z.to_nat (c - b))%nat by lia.
  rewrite seq_app, map_app. f_equal.
  replace (0 + Z.to_nat (b - a))%nat with (Z.to_nat (b - a) + 0)%nat by lia.
  rewrite <- (fmap_add_seq (Z.to_nat (b - a)) 0).
  rewrite <- list_fmap_compose. apply list_fmap_ext. intros ? k _. cbn. lia.
Qed.

Lemma py_range_In (a b i : Z) : In i (py_range a b) <-> a <= i < b.
Proof.
  unfold py_range. rewrite in_map_iff. split.
  - intros (k & <- & Hk). apply in_seq in Hk. lia.
  - intros H. exists (Z.to_nat (i - a)). split; [lia|]. apply in_seq. lia.
Qed.

Section PrefetchFacts.
Context {T : Type}.
Implicit Types self s : Prefetch.t T.
Import Prefetch.

Lemma loop_body_at_end self :
  _next_index self = _dataset_length self -> loop_body self = Break self.
Proof.
  intros H. unfold loop_body. rewrite H, Z.eqb_refl. reflexivity.
Qed.

(** One pass below the end reads the element at the cursor, whatever the
    buffer size; the state it leaves keeps the invariants once the cursor
    has moved. *)
Lemma loop_body_step self :
  wf self -> _next_index self < _dataset_length self ->
  exists s1,
    same_config s1 self /\
    _next_index s1 = _next_index self /\
    wf (with_next_index s1 (_next_index self + 1)) /\
    (logged self -> logged (with_next_index s1 (_next_index self + 1))) /\
    loop_body self =
      match ds_getitem (_dataset self) (_next_index self) with
      | Raise e => Throw e s1
      | Ok element => deliver s1 element
      end.
Proof.
  intros [Hb Hbuf] Hlt. unfold loop_body.
  destruct (Z.eqb_spec (_next_index self) (_dataset_length self)) as [?|_]; [lia|].
  destruct self as [ds L i buf B allow log]. cbn in *.
  unfold wf, buffer_ok, logged, window, same_config, with_buffer, with_next_index in *.
  cbn in *.
  destruct (Z.ltb_spec 0 B) as [HB|HB].
  - (* buffered *)
    assert (Hw : py_range i (Z.min (i + B) L) = i :: py_range (i + 1) (Z.min (i + B) L))
      by (apply py_range_cons; lia).
    assert (Hbuf' : match buf with None | Some [] => True | Some l => l = i :: py_range (i + 1) (Z.min (i + B) L) end).
    { specialize (Hbuf HB). destruct buf as [[|]|]; auto. congruence. }
    clear Hbuf.
    destruct (Z.ltb_spec (i + B) L) as [HL|HL].
    + assert (Hrest : py_range (i + 1) (Z.min (i + B) L) ++ [i + B]
                      = i + 1 :: py_range (i + 1 + 1) (Z.min (i + 1 + B) L)).
      { rewrite Z.min_l by lia. rewrite py_range_snoc by lia.
        rewrite (Z.min_l (i + 1 + B)) by lia.
        replace (i + B + 1) with (i + 1 + B) by lia.
        apply py_range_cons. lia. }
      assert (Hlog : py_range 0 (Z.min (i + B) L) ++ [i + B]
                     = py_range 0 (Z.min (i + 1 + B) L)).
      { rewrite !Z.min_l by lia. rewrite py_range_snoc by lia. f_equal. lia. }
      destruct buf as [[|x l]|]; cbn; rewrite ?Hw; cbn.
      all: try (injection Hbuf' as -> ->).
      all: destruct (Z.ltb_spec (i + B) L); [|lia].
      all: cbn.
      all: eexists; split; [|split; [|split; [|split; [|reflexivity]]]]; cbn.
      all: rewrite ?Hrest.
      all: try solve [auto | split; [lia|]; intros _; rewrite <- Hrest, Z.min_l by lia;
                      rewrite py_range_snoc by lia; f_equal; lia].
      all: destruct (Z.ltb_spec 0 B); [|lia]; intros ->.
      all: rewrite <- ?Hw, ?py_range_app by lia; exact Hlog.
    + assert (Hmin : Z.min (i + B) L = L) by lia.
      assert (Hmin' : Z.min (i + 1 + B) L = L) by lia.
      rewrite Hmin in *.
      destruct buf as [[|x l]|]; cbn; rewrite ?Hw; cbn.
      all: try (injection Hbuf' as -> ->).
      all: destruct (Z.ltb_spec (i + B) L); [lia|].
      all: cbn.
      all: eexists; split; [|split; [|split; [|split; [|reflexivity]]]]; cbn.
      all: rewrite ?Hmin'.
      all: try solve [auto | split; [lia|]; intros _; destruct (py_range (i + 1) L); auto].
      all: destruct (Z.ltb_spec 0 B); [|lia]; intros ->.
      all: rewrite <- ?Hw, ?py_range_app by lia.
      all: destruct (Z.eq_dec (i + 1) L) as [<-|];
        [rewrite (py_range_nil (i + 1)) by lia; reflexivity
        |rewrite (py_range_cons (i + 1)) by lia; reflexivity].
  - (* synchronous *)
    eexists; split; [|split; [|split; [|split; [|reflexivity]]]]; cbn.
    + auto.
    + reflexivity.
    + split; [lia|]. intros; lia.
    + destruct (Z.ltb_spec 0 B); [lia|]. intros ->. apply py_range_snoc. lia.
Qed.

Lemma same_config_trans s1 s2 s3 :
  same_config s1 s2 -> same_config s2 s3 -> same_config s1 s3.
Proof. unfold same_config. intuition congruence. Qed.

Lemma same_config_refl s : same_config s s.
Proof. unfold same_config. auto. Qed.

Lemma same_config_with_next_index s i : same_config (with_next_index s i) s.
Proof. unfold same_config. auto. Qed.

Lemma logged_at_end s :
  wf s -> logged s -> _next_index s = _dataset_length s ->
  submitted s = py_range 0 (_dataset_length s).
Proof.
  intros [Hb _]. unfold logged, window. intros Hl He.
  destruct (Z.ltb_spec 0 (_prefetch_buffer_size s)).
  - rewrite He in Hl. rewrite Z.min_r in Hl by lia.
    destruct (_buffer s) as [[|]|]; congruence.
  - congruence.
Qed.

Lemma logged_log_prefix s : wf s -> logged s -> log_prefix s.
Proof.
  intros [Hb _]. unfold logged, log_prefix, window. intros Hl.
  destruct (Z.ltb_spec 0 (_prefetch_buffer_size s)).
  - destruct (_buffer s) as [[|]|];
      first [ exists (_next_index s); split; [lia | assumption]
            | eexists; split; [|eassumption]; lia ].
  - exists (_next_index s). split; [lia | assumption].
Qed.

Lemma next_at_end self :
  _next_index self = _dataset_length self -> next self = Some (StopIteration self).
Proof.
  intros H. unfold next. cbn. rewrite loop_body_at_end by assumption. reflexivity.
Qed.

Lemma next_step self :
  wf self -> _next_index self < _dataset_length self ->
  exists s1,
    same_config s1 self /\
    _next_index s1 = _next_index self + 1 /\
    wf s1 /\
    (logged self -> logged s1) /\
    next self =
      match ds_getitem (_dataset self) (_next_index self) with
      | Raise e => Some (Raised e (with_next_index s1 (_next_index self)))
      | Ok element =>
          if _allow_nones self || bool_decide (is_Some element)
          then Some (Yield element s1) else next s1
      end.
Proof.
  intros Hwf Hlt.
  destruct (loop_body_step self Hwf Hlt) as (s0 & Hc & Hn & Hwf' & Hlog & Hbody).
  exists (with_next_index s0 (_next_index self + 1)).
  split; [eapply same_config_trans; [apply same_config_with_next_index | exact Hc]|].
  split; [reflexivity|]. split; [exact Hwf'|]. split; [exact Hlog|].
  unfold next at 1.
  replace (Z.to_nat (_dataset_length self - _next_index self))
    with (S (Z.to_nat (_dataset_length self - (_next_index self + 1)))) by lia.
  cbn [next_loop]. rewrite Hbody.
  destruct (ds_getitem (_dataset self) (_next_index self)) as [element|e].
  - unfold deliver. rewrite Hn.
    destruct Hc as (_ & HL & _ & Ha). cbn [_allow_nones with_next_index].
    rewrite Ha.
    destruct (_allow_nones self || bool_decide (is_Some element)); [reflexivity|].
    unfold next. cbn [_dataset_length _next_index with_next_index]. rewrite HL. reflexivity.
  - do 2 f_equal. destruct s0; cbn in *. subst. reflexivity.
Qed.

Lemma remaining_at_end self :
  _next_index self = _dataset_length self -> remaining self = ([], Exhausted).
Proof.
  intros H. unfold remaining. rewrite H, Z.sub_diag. reflexivity.
Qed.

Lemma remaining_step self s1 :
  _next_index self < _dataset_length self ->
  same_config s1 self -> _next_index s1 = _next_index self + 1 ->
  remaining self =
    match ds_getitem (_dataset self) (_next_index self) with
    | Raise e => ([], Failed e)
    | Ok element =>
        if _allow_nones self || bool_decide (is_Some element)
        then (element :: (remaining s1).1, (remaining s1).2)
        else remaining s1
    end.
Proof.
  intros Hlt (Hd & HL & _ & Ha) Hn. unfold remaining.
  rewrite Hd, HL, Ha, Hn.
  replace (Z.to_nat (_dataset_length self - _next_index self))
    with (S (Z.to_nat (_dataset_length self - (_next_index self + 1)))) by lia.
  cbn [read_from].
  destruct (ds_getitem (_dataset self) (_next_index self)); [|reflexivity].
  destruct (read_from _ _ _ _) as [l o]. 
  destruct (_allow_nones self || bool_decide (is_Some a)); reflexivity.
Qed.

(** What one call of [__next__] does, in terms of what is left to read. *)
Lemma next_spec self :
  wf self ->
  match next self with
  | None => False
  | Some (Yield element s1) =>
      wf s1 /\ same_config s1 self /\ (logged self -> logged s1) /\
      _next_index self < _next_index s1 /\
      remaining self = (element :: (remaining s1).1, (remaining s1).2)
  | Some (StopIteration s1) =>
      remaining self = ([], Exhausted) /\ same_config s1 self /\
      (logged self -> submitted s1 = py_range 0 (_dataset_length self))
  | Some (Raised e s1) =>
      remaining self = ([], Failed e) /\ same_config s1 self /\
      (logged self -> log_prefix s1)
  end.
Proof.
  remember (Z.to_nat (_dataset_length self - _next_index self)) as n eqn:Hn.
  revert self Hn. induction n as [|n IH]; intros self Hn Hwf.
  - assert (He : _next_index self = _dataset_length self) by (destruct Hwf; lia).
    rewrite next_at_end by assumption.
    split; [apply remaining_at_end; assumption|].
    split; [apply same_config_refl|]. intros Hl. apply logged_at_end; assumption.
  - assert (Hlt : _next_index self < _dataset_length self) by lia.
    destruct (next_step self Hwf Hlt) as (s1 & Hc & Hi & Hwf1 & Hlog & Hnext).
    rewrite Hnext, (remaining_step self s1 Hlt Hc Hi).
    destruct (ds_getitem (_dataset self) (_next_index self)) as [element|e].
    + destruct (_allow_nones self || bool_decide (is_Some element)).
      * repeat split; auto; try apply Hwf1; try apply Hc. lia.
      * assert (Hn1 : n = Z.to_nat (_dataset_length s1 - _next_index s1)).
        { destruct Hc as (_ & -> & _). lia. }
        specialize (IH s1 Hn1 Hwf1).
        destruct (next s1) as [[el s2|s2|e s2]|]; [| | |exact IH].
        -- destruct IH as (? & ? & ? & ? & ?).
           repeat split; eauto using same_config_trans; try apply H; try lia.
           all: eapply same_config_trans; eauto.
        -- destruct IH as (? & ? & ?).
           repeat split; eauto using same_config_trans.
           all: try (eapply same_config_trans; eauto; fail).
           intros Hl. destruct Hc as (_ & <- & _). auto.
        -- destruct IH as (? & ? & ?).
           repeat split; eauto using same_config_trans.
           all: eapply same_config_trans; eauto.
    + split; [reflexivity|]. split.
      * eapply same_config_trans; [apply same_config_with_next_index | exact Hc].
      * intros Hl. specialize (Hlog Hl).
        destruct (logged_log_prefix s1 Hwf1 Hlog) as (m & Hm & Hs).
        exists m. split; [exact Hm | exact Hs].
Qed.

Lemma read_from_finished (ds : LazyMapDataset T) allow i n :
  (read_from ds allow i n).2 <> Unfinished.
Proof.
  revert i. induction n as [|n IH]; intros i; cbn; [discriminate|].
  destruct (ds_getitem ds i); [|discriminate].
  specialize (IH (i + 1)). destruct (read_from ds allow (i + 1) n).
  destruct (allow || bool_decide (is_Some a)); exact IH.
Qed.

Lemma read_from_total (ds : LazyMapDataset T) allow i n :
  (forall j, i <= j < i + Z.of_nat n -> returns (ds_getitem ds j)) ->
  (read_from ds allow i n).2 = Exhausted.
Proof.
  revert i. induction n as [|n IH]; intros i H; cbn; [reflexivity|].
  destruct (H i ltac:(lia)) as [a ->].
  specialize (IH (i + 1) ltac:(intros; apply H; lia)).
  destruct (read_from ds allow (i + 1) n).
  destruct (allow || bool_decide (is_Some a)); exact IH.
Qed.

(** Consuming the iterator delivers what is left to read, and the loop
    ends within [length - next_index + 1] calls of [__next__]. *)
Lemma consume_spec fuel self :
  wf self ->
  (Z.to_nat (_dataset_length self - _next_index self) < fuel)%nat ->
  exists s1,
    consume fuel self = (remaining self, s1) /\
    same_config s1 self /\
    (logged self ->
       log_prefix s1 /\
       ((remaining self).2 = Exhausted ->
        submitted s1 = py_range 0 (_dataset_length self))).
Proof.
  revert self. induction fuel as [|fuel IH]; intros self Hwf Hf; [lia|].
  cbn [consume]. pose proof (next_spec self Hwf) as Hn.
  destruct (next self) as [[element s1|s1|e s1]|]; [| | |contradiction].
  - destruct Hn as (Hwf1 & Hc & Hlog & Hlt & Hrem).
    assert (HL : _dataset_length s1 = _dataset_length self) by apply Hc.
    destruct (IH s1 Hwf1) as (s2 & Hcons & Hc2 & Hlog2).
    { destruct Hwf1 as [? _]. lia. }
    exists s2. rewrite Hcons, Hrem.
    destruct (remaining s1) as [l o]. cbn.
    split; [reflexivity|]. split; [eapply same_config_trans; eauto|].
    intros Hl. specialize (Hlog2 (Hlog Hl)). rewrite <- HL. exact Hlog2.
  - destruct Hn as (Hrem & Hc & Hlog). exists s1. rewrite Hrem.
    split; [reflexivity|]. split; [exact Hc|].
    intros Hl. split; [|intros _; auto].
    exists (_dataset_length self). destruct Hc as (_ & -> & _).
    split; [destruct Hwf; lia | auto].
  - destruct Hn as (Hrem & Hc & Hlog). exists s1. rewrite Hrem.
    split; [reflexivity|]. split; [exact Hc|].
    intros Hl. split; [auto | discriminate].
Qed.

Lemma advance_spec k self pre s :
  wf self -> advance k self = Some (pre, s) ->
  wf s /\ same_config s self /\ (logged self -> logged s) /\
  remaining self = (pre ++ (remaining s).1, (remaining s).2).
Proof.
  revert self pre. induction k as [|k IH]; intros self pre Hwf; cbn [advance].
  - intros [= <- <-]. repeat split; auto; try apply Hwf.
    destruct (remaining self); reflexivity.
  - pose proof (next_spec self Hwf) as Hn.
    destruct (next self) as [[element s1|s1|e s1]|]; try discriminate.
    destruct Hn as (Hwf1 & Hc & Hlog & Hlt & Hrem).
    destruct (advance k s1) as [[l s2]|] eqn:Hadv; [|discriminate].
    intros [= <- <-].
    destruct (IH s1 l Hwf1 Hadv) as (Hwf2 & Hc2 & Hlog2 & Hrem2).
    split; [exact Hwf2|]. split; [eapply same_config_trans; eauto|].
    split; [auto|]. rewrite Hrem, Hrem2. reflexivity.
Qed.

Lemma init_spec (ds : LazyMapDataset T) opts allow it :
  init ds opts allow = Ok it ->
  wf it /\ logged it /\
  _dataset it = ds /\ _allow_nones it = allow /\ _next_index it = 0 /\
  _prefetch_buffer_size it = ReadOptions.prefetch_buffer_size opts /\
  py_len (ds_len ds) = Ok (_dataset_length it).
Proof.
  unfold init. destruct (py_len (ds_len ds)) as [n|] eqn:Hlen; [|discriminate].
  cbn [bind].
  assert (Hn : 0 <= n).
  { unfold py_len in Hlen. destruct (ds_len ds); [|discriminate]. cbn in Hlen.
    destruct (Z.ltb_spec a 0); [discriminate|]. injection Hlen as <-. lia. }
  intros H.
  assert (Hit : it = {| _dataset := ds; _dataset_length := n; _next_index := 0;
                        _buffer := None;
                        _prefetch_buffer_size := ReadOptions.prefetch_buffer_size opts;
                        _allow_nones := allow; submitted := [] |}).
  { destruct (0 <? ReadOptions.prefetch_buffer_size opts);
      [destruct (ReadOptions.num_threads opts <=? 0)|]; congruence. }
  subst it. unfold wf, buffer_ok, logged. cbn.
  repeat split; auto; try lia.
  destruct (0 <? ReadOptions.prefetch_buffer_size opts); reflexivity.
Qed.

Lemma set_state_get_state (fresh s : Prefetch.t T) :
  wf s -> wf fresh -> _dataset_length fresh = _dataset_length s ->
  exists restored,
    set_state fresh (get_state s) = Ok restored /\
    wf restored /\ same_config restored fresh /\
    _next_index restored = _next_index s.
Proof.
  intros [Hb _] [Hb' Hbuf] HL. unfold set_state, get_state.
  rewrite lookup_singleton_eq. eexists. split; [reflexivity|].
  unfold wf, buffer_ok, same_config in *.
  destruct (Z.ltb_spec 0 (_prefetch_buffer_size (with_next_index fresh (_next_index s))));
    cbn in *; rewrite ?HL; repeat split; auto; try lia.
Qed.

Lemma read_from_filter (ds : LazyMapDataset T) i n :
  read_from ds false i n =
    (filter is_Some (read_from ds true i n).1, (read_from ds true i n).2).
Proof.
  revert i. induction n as [|n IH]; intros i; cbn [read_from]; [reflexivity|].
  destruct (ds_getitem ds i) as [el|]; [|reflexivity].
  rewrite IH. destruct (read_from ds true (i + 1) n) as [l o].
  cbn [orb fst snd]. rewrite filter_cons.
  destruct (decide (is_Some el)) as [H|H].
  - rewrite bool_decide_eq_true_2 by assumption. reflexivity.
  - rewrite bool_decide_eq_false_2 by assumption. reflexivity.
Qed.

Lemma read_from_true_lookup (ds : LazyMapDataset T) i n (j : nat) el :
  (read_from ds true i n).1 !! j = Some el ->
  ds_getitem ds (i + Z.of_nat j) = Ok el.
Proof.
  revert i j. induction n as [|n IH]; intros i j; cbn [read_from]; [discriminate|].
  destruct (ds_getitem ds i) as [x|] eqn:Hx; [|discriminate].
  specialize (IH (i + 1)). destruct (read_from ds true (i + 1) n) as [l o].
  cbn in *. destruct j as [|j]; cbn.
  - intros [= <-]. rewrite Z.add_0_r. exact Hx.
  - intros H. apply IH in H. rewrite <- H. f_equal. lia.
Qed.

Lemma read_from_true_length (ds : LazyMapDataset T) i n :
  (read_from ds true i n).2 = Exhausted ->
  length (read_from ds true i n).1 = n.
Proof.
  revert i. induction n as [|n IH]; intros i; cbn [read_from]; [reflexivity|].
  destruct (ds_getitem ds i) as [x|]; [|discriminate].
  specialize (IH (i + 1)). destruct (read_from ds true (i + 1) n) as [l o].
  cbn in *. intros H. rewrite IH by assumption. reflexivity.
Qed.

Lemma consume_fresh (ds : LazyMapDataset T) opts allow it fuel :
  init ds opts allow = Ok it ->
  (Z.to_nat (_dataset_length it) < fuel)%nat ->
  (consume fuel it).1 = read_from ds allow 0 (Z.to_nat (_dataset_length it)).
Proof.
  intros Hinit Hf.
  destruct (init_spec ds opts allow it Hinit) as (Hwf & _ & Hd & Ha & Hi & _).
  destruct (consume_spec fuel it Hwf) as (s1 & -> & _); [lia|].
  unfold remaining. rewrite Hd, Ha, Hi, Z.sub_0_r. reflexivity.
Qed.

(** C1: for every map dataset, read options and number [k] of elements
    already consumed, the state returned by [get_state] after the [k]-th
    [next], installed by [set_state] on a fresh iterator over the same
    dataset, makes that iterator deliver to exhaustion exactly what the
    uninterrupted iterator delivers after its first [k] elements (same
    elements, same order, same end: [StopIteration] or the same
    exception), and the uninterrupted run is the [k] elements followed by
    that suffix. *)
Theorem checkpoint_sufficiency (ds : LazyMapDataset T) opts allow
    (it fresh itk : Prefetch.t T) k pre fuel :
  init ds opts allow = Ok it ->
  init ds opts allow = Ok fresh ->
  advance k it = Some (pre, itk) ->
  (Z.to_nat (_dataset_length it) < fuel)%nat ->
  exists restored,
    set_state fresh (get_state itk) = Ok restored /\
    (consume fuel restored).1 = (consume fuel itk).1 /\
    (consume fuel it).1 = (pre ++ (consume fuel itk).1.1, (consume fuel itk).1.2) /\
    (consume fuel itk).1.2 <> Unfinished.
Proof.
  intros Hinit Hfresh Hadv Hf.
  destruct (init_spec ds opts allow it Hinit) as (Hwf & _ & Hd & Ha & Hi & _).
  assert (fresh = it) as -> by congruence.
  destruct (advance_spec k it pre itk Hwf Hadv) as (Hwfk & Hck & _ & Hrem).
  assert (HL : _dataset_length itk = _dataset_length it) by apply Hck.
  destruct (set_state_get_state it itk Hwfk Hwf (eq_sym HL))
    as (restored & Hset & Hwfr & Hcr & Hir).
  assert (HLr : _dataset_length restored = _dataset_length it) by apply Hcr.
  exists restored. split; [exact Hset|].
  destruct (consume_spec fuel restored Hwfr) as (s1 & -> & _).
  { destruct Hwfr as [? _]. lia. }
  destruct (consume_spec fuel itk Hwfk) as (s2 & -> & _).
  { destruct Hwfk as [? _]. lia. }
  destruct (consume_spec fuel it Hwf) as (s3 & -> & _); [lia|].
  cbn [fst snd]. split; [|split; [exact Hrem | apply read_from_finished]].
  unfold remaining.
  destruct Hcr as (-> & -> & _ & ->). destruct Hck as (-> & -> & _ & ->).
  rewrite Hir. reflexivity.
Qed.

(** C2: for every map dataset, buffer size [B > 0] and thread count, the
    prefetching iterator delivers, element for element and in the same
    order, what the synchronous iterator ([B = 0]) over the same dataset
    delivers, and ends the same way; nothing is reordered, dropped or
    duplicated. *)
Theorem prefetch_preserves_order (ds : LazyMapDataset T) B threads threads0 allow
    (itB it0 : Prefetch.t T) fuel :
  0 < B ->
  init ds {| ReadOptions.prefetch_buffer_size := B;
             ReadOptions.num_threads := threads |} allow = Ok itB ->
  init ds {| ReadOptions.prefetch_buffer_size := 0;
             ReadOptions.num_threads := threads0 |} allow = Ok it0 ->
  (Z.to_nat (_dataset_length it0) < fuel)%nat ->
  (consume fuel itB).1 = (consume fuel it0).1 /\
  (consume fuel it0).1.2 <> Unfinished.
Proof.
  intros _ HB H0 Hf.
  assert (HL : _dataset_length itB = _dataset_length it0).
  { apply init_spec in HB, H0.
    destruct HB as (_ & _ & _ & _ & _ & _ & HB), H0 as (_ & _ & _ & _ & _ & _ & H0).
    congruence. }
  rewrite (consume_fresh _ _ _ _ _ HB), (consume_fresh _ _ _ _ _ H0), HL by lia.
  split; [reflexivity | apply read_from_finished].
Qed.

(** C4: over the same dataset, the iterator built with
    [allow_nones = True] delivers every element, [None]s included, each at
    its own position; the iterator built with [allow_nones = False]
    delivers the same elements with the [None]s removed, so no [None]
    reaches the consumer. *)
Theorem sparse_transparency (ds : LazyMapDataset T) opts
    (it_skip it_keep : Prefetch.t T) fuel :
  init ds opts false = Ok it_skip ->
  init ds opts true = Ok it_keep ->
  (Z.to_nat (_dataset_length it_keep) < fuel)%nat ->
  let kept := (consume fuel it_keep).1 in
  let skipped := (consume fuel it_skip).1 in
  (forall (j : nat) el,
      kept.1 !! j = Some el -> ds_getitem ds (Z.of_nat j) = Ok el) /\
  (kept.2 = Exhausted -> length kept.1 = Z.to_nat (_dataset_length it_keep)) /\
  kept.2 <> Unfinished /\
  skipped.1 = filter is_Some kept.1 /\
  skipped.2 = kept.2 /\
  Forall (fun el => el <> None) skipped.1.
Proof.
  intros Hs Hk Hf kept skipped. subst kept skipped.
  assert (HL : _dataset_length it_skip = _dataset_length it_keep).
  { apply init_spec in Hs, Hk.
    destruct Hs as (_ & _ & _ & _ & _ & _ & Hs), Hk as (_ & _ & _ & _ & _ & _ & Hk).
    congruence. }
  rewrite (consume_fresh _ _ _ _ _ Hs), (consume_fresh _ _ _ _ _ Hk), HL by lia.
  rewrite read_from_filter. cbn [fst snd].
  split; [intros j el H; apply read_from_true_lookup in H; exact H|].
  split; [apply read_from_true_length|].
  split; [apply read_from_finished|].
  split; [reflexivity|]. split; [reflexivity|].
  apply Forall_forall. intros el Hel.
  apply list_elem_of_filter in Hel.
  destruct Hel as [[x ->] _].
  discriminate.
Qed.

(** C10: a fresh iterator over a dataset of declared length [L], consumed
    until its loop ends, has handed to [__getitem__] the indices
    [0, 1, ..., m-1] for some [m <= L], each once and in increasing
    order, so never an index [>= L]; when the loop ends with
    [StopIteration] they are exactly [0, ..., L-1]; and the loop does end
    with [StopIteration] when the dataset returns at every index below
    [L]. *)
Theorem one_epoch_reads (ds : LazyMapDataset T) opts allow (it : Prefetch.t T) fuel :
  init ds opts allow = Ok it ->
  (Z.to_nat (_dataset_length it) < fuel)%nat ->
  let '(_, o, final) := consume fuel it in
  o <> Unfinished /\
  (exists m, 0 <= m <= _dataset_length it /\ submitted final = py_range 0 m) /\
  (o = Exhausted -> submitted final = py_range 0 (_dataset_length it)) /\
  ((forall i, 0 <= i < _dataset_length it -> returns (ds_getitem ds i)) ->
   o = Exhausted).
Proof.
  intros Hinit Hf.
  destruct (init_spec ds opts allow it Hinit) as (Hwf & Hlog & Hd & Ha & Hi & _).
  destruct (consume_spec fuel it Hwf) as (s1 & -> & Hc & Hl); [lia|].
  destruct (Hl Hlog) as [(m & Hm & Hs) Hex].
  destruct (remaining it) as [l o] eqn:Hrem. cbn [snd] in *.
  assert (HL : _dataset_length s1 = _dataset_length it) by apply Hc.
  split; [|split; [|split]].
  - pose proof (read_from_finished (_dataset it) (_allow_nones it) (_next_index it)
      (Z.to_nat (_dataset_length it - _next_index it))) as H.
    unfold remaining in Hrem. rewrite Hrem in H. exact H.
  - exists m. rewrite <- HL. auto.
  - exact Hex.
  - intros Htot.
    pose proof (read_from_total (_dataset it) (_allow_nones it) (_next_index it)
      (Z.to_nat (_dataset_length it - _next_index it))) as H.
    unfold remaining in Hrem. rewrite Hrem in H. apply H.
    intros j Hj. rewrite Hd. apply Htot. lia.
Qed.
End PrefetchFacts.

(** * Witnesses and examples for the prefetch iterator *)

Example range5_prefetch_run :
  (Prefetch.consume 6 (Examples.fresh Examples.range5 5 2 false)).1
  = ([Some 0; Some 1; Some 2; Some 3; Some 4], Prefetch.Exhausted).
Proof. vm_compute. reflexivity. Qed.

Example sparse4_skips_nones :
  (Prefetch.consume 5 (Examples.fresh Examples.sparse4 4 3 false)).1
  = ([Some 0; Some 20], Prefetch.Exhausted).
Proof. vm_compute. reflexivity. Qed.

Example sparse4_keeps_nones :
  (Prefetch.consume 5 (Examples.fresh Examples.sparse4 4 3 true)).1
  = ([Some 0; None; Some 20; None], Prefetch.Exhausted).
Proof. vm_compute. reflexivity. Qed.

Lemma checkpoint_sufficiency_witness :
  exists restored,
    Prefetch.set_state (Examples.fresh Examples.range5 5 2 false)
      (Prefetch.get_state Examples.range5_after_2) = Ok restored /\
    (Prefetch.consume 6 restored).1 = (Prefetch.consume 6 Examples.range5_after_2).1 /\
    (Prefetch.consume 6 (Examples.fresh Examples.range5 5 2 false)).1 =
      ([Some 0; Some 1] ++ (Prefetch.consume 6 Examples.range5_after_2).1.1,
       (Prefetch.consume 6 Examples.range5_after_2).1.2) /\
    (Prefetch.consume 6 Examples.range5_after_2).1.2 <> Prefetch.Unfinished.
Proof.
  apply (checkpoint_sufficiency Examples.range5 (Examples.options 2 4) false
           (Examples.fresh Examples.range5 5 2 false)
           (Examples.fresh Examples.range5 5 2 false)
           Examples.range5_after_2 2 [Some 0; Some 1] 6).
  - reflexivity.
  - reflexivity.
  - reflexivity.
  - simpl. lia.
Defined.

Lemma prefetch_preserves_order_witness :
  (Prefetch.consume 5 (Examples.fresh Examples.sparse4 4 3 false)).1
  = (Prefetch.consume 5 (Examples.fresh Examples.sparse4 4 0 false)).1 /\
  (Prefetch.consume 5 (Examples.fresh Examples.sparse4 4 0 false)).1.2
  <> Prefetch.Unfinished.
Proof.
  apply (prefetch_preserves_order Examples.sparse4 3 8 1 false
           (Examples.fresh Examples.sparse4 4 3 false)
           (Examples.fresh Examples.sparse4 4 0 false) 5).
  - lia.
  - reflexivity.
  - reflexivity.
  - simpl. lia.
Defined.

Lemma sparse_transparency_witness :
  let kept := (Prefetch.consume 5 (Examples.fresh Examples.sparse4 4 3 true)).1 in
  let skipped := (Prefetch.consume 5 (Examples.fresh Examples.sparse4 4 3 false)).1 in
  (forall (j : nat) el,
      kept.1 !! j = Some el -> ds_getitem Examples.sparse4 (Z.of_nat j) = Ok el) /\
  (kept.2 = Prefetch.Exhausted ->
   length kept.1 = Z.to_nat (Prefetch._dataset_length (Examples.fresh Examples.sparse4 4 3 true))) /\
  kept.2 <> Prefetch.Unfinished /\
  skipped.1 = filter is_Some kept.1 /\
  skipped.2 = kept.2 /\
  Forall (fun el => el <> None) skipped.1.
Proof.
  apply (sparse_transparency Examples.sparse4 (Examples.options 3 2)
           (Examples.fresh Examples.sparse4 4 3 false)
           (Examples.fresh Examples.sparse4 4 3 true) 5).
  - reflexivity.
  - reflexivity.
  - simpl. lia.
Defined.

Lemma one_epoch_reads_witness :
  let '(_, o, final) := Prefetch.consume 6 (Examples.fresh Examples.range5 5 2 false) in
  o <> Prefetch.Unfinished /\
  (exists m, 0 <= m <= 5 /\ Prefetch.submitted final = py_range 0 m) /\
  (o = Prefetch.Exhausted -> Prefetch.submitted final = py_range 0 5) /\
  ((forall i, 0 <= i < 5 -> returns (ds_getitem Examples.range5 i)) ->
   o = Prefetch.Exhausted).
Proof.
  apply (one_epoch_reads Examples.range5 (Examples.options 2 4) false
           (Examples.fresh Examples.range5 5 2 false) 6).
  - reflexivity.
  - simpl. lia.
Defined.

(** * Theorems about the construction of the process-prefetch dataset *)

Lemma validate_loop_spec (l : list Multiprocess.dataset) :
  Multiprocess.validate_loop l =
    if existsb Multiprocess.contains_multiprocess l
    then Raise ValueError else Ok tt.
Proof.
  funelim (Multiprocess.validate_loop l); simp validate_loop; cbn;
    try reflexivity.
  rewrite H, existsb_app.
  destruct (existsb Multiprocess.contains_multiprocess rest),
    (existsb Multiprocess.contains_multiprocess ps); reflexivity.
Qed.

(** C5: constructing a [MultiprocessPrefetchLazyIterDataset] raises if and
    only if [num_workers < 1] or the parent DAG, followed through
    [parents], already contains a [MultiprocessPrefetchLazyIterDataset];
    otherwise the constructor returns the new node. *)
Theorem multiprocess_init_fails_iff (parent : Multiprocess.dataset)
    (opts : Multiprocess.MultiprocessingOptions) :
  (rejected (Multiprocess.init parent opts) <->
   Multiprocess.num_workers opts < 1 \/
   Multiprocess.contains_multiprocess parent = true) /\
  (~ rejected (Multiprocess.init parent opts) ->
   Multiprocess.init parent opts = Ok (Multiprocess.Node true [parent])).
Proof.
  unfold Multiprocess.init, Multiprocess._validate_parent_dataset, rejected.
  destruct (Z.ltb_spec (Multiprocess.num_workers opts) 1) as [Hw|Hw].
  - split; [split; [auto | eauto]|]. intros H. exfalso. eauto.
  - rewrite validate_loop_spec. cbn [existsb]. rewrite orb_false_r.
    destruct (Multiprocess.contains_multiprocess parent); cbn.
    + split; [split; [auto | eauto]|]. intros H. exfalso. eauto.
    + split; [|reflexivity].
      split; [intros [e He]; discriminate | intros [?|?]; [lia | discriminate]].
Qed.

Example two_process_prefetch_nodes :
  let leaf := Multiprocess.Node false [] in
  Multiprocess.init
    (Multiprocess.Node false [leaf; Multiprocess.Node false [Multiprocess.Node true [leaf]]])
    {| Multiprocess.num_workers := 4 |} = Raise ValueError /\
  Multiprocess.init (Multiprocess.Node false [leaf])
    {| Multiprocess.num_workers := 0 |} = Raise ValueError /\
  Multiprocess.init (Multiprocess.Node false [leaf])
    {| Multiprocess.num_workers := 1 |}
  = Ok (Multiprocess.Node true [Multiprocess.Node false [leaf]]).
Proof. repeat split. Qed.

(** * Theorems about the state records returned by [get_state] *)

(** [PrefetchLazyDatasetIterator.get_state] returns an object no one else
    refers to. *)
Lemma Prefetch_get_state_object_fresh {T : Type} (self : Prefetch.t T) (h : Heap.t) :
  let '(l, h') := Prefetch_get_state_object self h in
  h !! l = None /\
  h' !! l = Some (Prefetch.get_state self) /\
  forall l', l' <> l -> h' !! l' = h !! l'.
Proof.
  unfold Prefetch_get_state_object, Heap.alloc.
  set (l := fresh (dom h)).
  assert (Hl : h !! l = None).
  { apply not_elem_of_dom. apply is_fresh. }
  split; [exact Hl|]. split; [apply lookup_insert_eq|].
  intros l' Hne. apply lookup_insert_ne. congruence.
Qed.

(** Once [ThreadPrefetchLazyDatasetIterator] has recorded a state, its
    [get_state] hands out that very object and allocates nothing. *)
Lemma ThreadPrefetch_get_state_live {T : Type} (self : ThreadPrefetch.t T)
    (l : Heap.loc) (h : Heap.t) :
  ThreadPrefetch._closed self = false ->
  ThreadPrefetch._producer self <> ThreadPrefetch.NotStarted ->
  ThreadPrefetch._state self = Some l ->
  ThreadPrefetch.get_state self h = ThreadPrefetch.Returns (l, self, h).
Proof.
  intros Hc Hp Hs. unfold ThreadPrefetch.get_state, ThreadPrefetch.start_prefetch.
  rewrite Hc.
  destruct (ThreadPrefetch._producer self); [contradiction| |]; rewrite Hs; reflexivity.
Qed.

(** C9: the record returned by [get_state] of the thread-prefetch
    iterator over an iter-dataset parent is not a copy.  On
    [ThreadPrefetchLazyIterDataset] over [range(5)]: [get_state()]
    returns the record [{"next_index": 0}]; after the caller runs
    [state["next_index"] = 99] a second [get_state()] returns the same
    object, which now reads [{"next_index": 99}], whereas without the
    mutation it reads [{"next_index": 0}]. *)
Theorem thread_prefetch_get_state_aliases :
  match ThreadPrefetch.get_state Examples.range5_thread_prefetch ∅ with
  | ThreadPrefetch.Returns (state, it, h) =>
      h !! state = Some {[ "next_index" := 0 ]} /\
      match ThreadPrefetch.get_state it (Heap.setitem h state "next_index" 99) with
      | ThreadPrefetch.Returns (state', _, h') =>
          state' = state /\ h' !! state' = Some {[ "next_index" := 99 ]}
      | _ => False
      end /\
      match ThreadPrefetch.get_state it h with
      | ThreadPrefetch.Returns (state', _, h') =>
          state' = state /\ h' !! state' = Some {[ "next_index" := 0 ]}
      | _ => False
      end
  | _ => False
  end.
Proof. vm_compute. repeat split. Qed.

(** * Theorems about the single-bin packer *)

(** The packer agrees with [test_pack_single_feature_in_dict] and, with
    the last element left out, with the padded remainder of
    [test_pack_single_feature_remainder_is_padded]: with one feature
    every element either fills it or fits as a whole or does not. *)
Example pack_single_feature :
  let single (l : list Z) : Packing.element := {[ "inputs" := l ]} in
  let T : Packing.length_struct := {[ "inputs" := 4%nat ]} in
  let show (r : Packing.record) :=
    (r !! "inputs", r !! "inputs_segment_ids", r !! "inputs_positions") in
  map show (Packing.SingleBinPack T
    [single [1; 2; 3; 4]; single [5; 6]; single [11; 12; 13; 14]; single [7]; single [8]])
  = [ (Some [1; 2; 3; 4], Some [1; 1; 1; 1], Some [0; 1; 2; 3]);
      (Some [11; 12; 13; 14], Some [1; 1; 1; 1], Some [0; 1; 2; 3]);
      (Some [5; 6; 7; 8], Some [1; 1; 2; 3], Some [0; 1; 0; 0]) ] /\
  map show (Packing.SingleBinPack T
    [single [1; 2; 3; 4]; single [5; 6]; single [11; 12; 13; 14]; single [7]])
  = [ (Some [1; 2; 3; 4], Some [1; 1; 1; 1], Some [0; 1; 2; 3]);
      (Some [11; 12; 13; 14], Some [1; 1; 1; 1], Some [0; 1; 2; 3]);
      (Some [5; 6; 7; 0], Some [1; 1; 2; 0], Some [0; 1; 0; 0]) ].
Proof. vm_compute. split; reflexivity. Qed.


(** With two features of length 4, the inputs of
    [test_pack_multiple_features_same_sequences_length]: the first and
    the third element fill [inputs] and not [targets], so step 1 does not
    apply to them, and the run gives four records.  The test expects
    three, the third element coming out second,
    "because it's already fully packed on 'inputs'". *)
Example pack_same_sequences_length :
  map PackingExamples.show
    (Packing.SingleBinPack {[ "inputs" := 4%nat; "targets" := 4%nat ]}
       PackingExamples.input_elements)
  = [ (Some [1; 2; 3; 4], Some [1; 1; 1; 1], Some [0; 1; 2; 3],
       Some [10; 20; 0; 0], Some [1; 1; 0; 0], Some [0; 1; 0; 0]);
      (Some [5; 6; 0; 0], Some [1; 1; 0; 0], Some [0; 1; 0; 0],
       Some [30; 40; 50; 0], Some [1; 1; 1; 0], Some [0; 1; 2; 0]);
      (Some [11; 12; 13; 14], Some [1; 1; 1; 1], Some [0; 1; 2; 3],
       Some [31; 41; 51; 0], Some [1; 1; 1; 0], Some [0; 1; 2; 0]);
      (Some [7; 0; 0; 0], Some [1; 0; 0; 0], Some [0; 0; 0; 0],
       Some [60; 0; 0; 0], Some [1; 0; 0; 0], Some [0; 0; 0; 0]) ].
Proof. vm_compute. reflexivity. Qed.

(** * More about the thread-pool prefetch iterator *)

Section PrefetchCursor.
Context {T : Type}.
Implicit Types self s : Prefetch.t T.
Import Prefetch.

(** In buffered mode one pass below the end leaves in the buffer the
    futures of the window that starts just after the cursor. *)
Lemma loop_body_window self :
  wf self -> 0 < _prefetch_buffer_size self ->
  _next_index self < _dataset_length self ->
  exists s1,
    same_config s1 self /\
    _next_index s1 = _next_index self /\
    _buffer s1 =
      Some (py_range (_next_index self + 1)
              (Z.min (_next_index self + 1 + _prefetch_buffer_size self)
                     (_dataset_length self))) /\
    loop_body self =
      match ds_getitem (_dataset self) (_next_index self) with
      | Raise e => Throw e s1
      | Ok element => deliver s1 element
      end.
Proof.
  intros [Hb Hbuf] HB Hlt. unfold loop_body.
  destruct (Z.eqb_spec (_next_index self) (_dataset_length self)) as [?|_]; [lia|].
  destruct self as [ds L i buf B allow log]. cbn in *.
  unfold buffer_ok, window, with_buffer, same_config in *. cbn in *.
  specialize (Hbuf HB).
  destruct (Z.ltb_spec 0 B) as [_|?]; [|lia].
  assert (Hw : py_range i (Z.min (i + B) L) = i :: py_range (i + 1) (Z.min (i + B) L))
    by (apply py_range_cons; lia).
  assert (Hbuf' : match buf with
                  | None | Some [] => True
                  | Some l => l = i :: py_range (i + 1) (Z.min (i + B) L)
                  end).
  { destruct buf as [[|]|]; auto. congruence. }
  clear Hbuf.
  assert (Hnew : (if i + B <? L
                  then py_range (i + 1) (Z.min (i + B) L) ++ [i + B]
                  else py_range (i + 1) (Z.min (i + B) L))
                 = py_range (i + 1) (Z.min (i + 1 + B) L)).
  { destruct (Z.ltb_spec (i + B) L).
    - rewrite !Z.min_l by lia. rewrite py_range_snoc by lia. f_equal. lia.
    - rewrite !Z.min_r by lia. reflexivity. }
  destruct (i + B <? L) eqn:E.
  all: destruct buf as [[|x l]|]; cbn; rewrite ?Hw; cbn; rewrite ?E.
  all: try (injection Hbuf' as -> ->).
  all: eexists; (split; [|split; [|split; [|reflexivity]]]); cbn; auto.
  all: rewrite <- Hnew; reflexivity.
Qed.

(** What one call of [__next__] does to the cursor: it reads the indices
    from the cursor on, passes over the [None]s it may not deliver, and
    stops at the first element it delivers, at the first exception, or at
    the end. *)
Lemma next_cursor self :
  wf self ->
  match next self with
  | None => False
  | Some (Yield element s1) =>
      exists j,
        _next_index self <= j < _dataset_length self /\
        ds_getitem (_dataset self) j = Ok element /\
        (_allow_nones self = true \/ element <> None) /\
        (forall i, _next_index self <= i < j ->
           _allow_nones self = false /\ ds_getitem (_dataset self) i = Ok None) /\
        _next_index s1 = j + 1 /\
        (0 < _prefetch_buffer_size self ->
         _buffer s1 = Some (py_range (j + 1)
                              (Z.min (j + 1 + _prefetch_buffer_size self)
                                     (_dataset_length self))))
  | Some (StopIteration s1) =>
      (forall i, _next_index self <= i < _dataset_length self ->
         _allow_nones self = false /\ ds_getitem (_dataset self) i = Ok None) /\
      _next_index s1 = _dataset_length self
  | Some (Raised e s1) =>
      exists j,
        _next_index self <= j < _dataset_length self /\
        ds_getitem (_dataset self) j = Raise e /\
        (forall i, _next_index self <= i < j ->
           _allow_nones self = false /\ ds_getitem (_dataset self) i = Ok None) /\
        _next_index s1 = j
  end.
Proof.
  remember (Z.to_nat (_dataset_length self - _next_index self)) as n eqn:Hn.
  revert self Hn. induction n as [|n IH]; intros self Hn Hwf.
  - assert (He : _next_index self = _dataset_length self) by (destruct Hwf; lia).
    rewrite next_at_end by assumption. split; [intros; lia | assumption].
  - assert (Hlt : _next_index self < _dataset_length self) by lia.
    destruct (next_step self Hwf Hlt) as (s1 & Hc & Hi & Hwf1 & _ & Hnext).
    rewrite Hnext.
    destruct Hc as (Hd & HL & HB & Ha).
    destruct (ds_getitem (_dataset self) (_next_index self)) as [element|e] eqn:Hget.
    + destruct (_allow_nones self || bool_decide (is_Some element)) eqn:Hdel.
      * exists (_next_index self). split; [lia|]. split; [exact Hget|].
        split.
        { apply orb_true_iff in Hdel. destruct Hdel as [?|Hs]; [left; assumption|].
          right. apply bool_decide_eq_true in Hs. destruct Hs as [x ->]. discriminate. }
        split; [intros; lia|]. split; [exact Hi|].
        intros HBpos.
        destruct (loop_body_window self Hwf HBpos Hlt) as (s0 & Hc0 & Hi0 & Hbuf0 & Hbody).
        pose proof Hnext as Hnext'. unfold next in Hnext'.
        replace (Z.to_nat (_dataset_length self - _next_index self))
          with (S (Z.to_nat (_dataset_length self - (_next_index self + 1))))
          in Hnext' by lia.
        cbn [next_loop] in Hnext'. rewrite Hbody, Hget in Hnext'.
        unfold deliver in Hnext'. cbn [_allow_nones with_next_index] in Hnext'.
        destruct Hc0 as (_ & _ & _ & Ha0). rewrite Ha0, Hdel in Hnext'.
        injection Hnext' as <-. cbn [_buffer with_next_index]. exact Hbuf0.
      * apply orb_false_iff in Hdel. destruct Hdel as [Hallow Hnone].
        apply bool_decide_eq_false in Hnone.
        assert (element = None) as -> by (destruct element; [exfalso; eauto | reflexivity]).
        assert (Hn1 : n = Z.to_nat (_dataset_length s1 - _next_index s1)) by lia.
        specialize (IH s1 Hn1 Hwf1). rewrite Hd, HL, HB, Ha, Hi in IH.
        assert (Hskip : forall j i, _next_index self <= i < j ->
                  (forall i, _next_index self + 1 <= i < j ->
                     _allow_nones self = false /\ ds_getitem (_dataset self) i = Ok None) ->
                  _allow_nones self = false /\ ds_getitem (_dataset self) i = Ok None).
        { intros j i Hi' Hrest.
          destruct (Z.eq_dec i (_next_index self)) as [->|]; [auto|]. apply Hrest. lia. }
        destruct (next s1) as [[el s2|s2|e s2]|]; [| | |exact IH].
        -- destruct IH as (j & Hj & Hg & Hd' & Hsk & Hi2 & Hbuf).
           exists j. repeat split; auto; try lia; try (apply (Hskip j i); auto; fail).
           all: apply (Hskip j i); auto.
        -- destruct IH as (Hsk & Hi2).
           split; [|assumption]. intros i Hi'. apply (Hskip (_dataset_length self) i); auto.
        -- destruct IH as (j & Hj & Hg & Hsk & Hi2).
           exists j. repeat split; auto; try lia.
           all: apply (Hskip j i); auto.
    + exists (_next_index self). split; [lia|]. split; [exact Hget|].
      split; [intros; lia | reflexivity].
Qed.

Lemma wf_bounds self : wf self -> 0 <= _next_index self <= _dataset_length self.
Proof. intros [H _]. exact H. Qed.

(** An iterator reached from a fresh one by successful calls of
    [__next__] keeps the invariant and its configuration. *)
Lemma reachable_spec (ds : LazyMapDataset T) opts allow it k pre self :
  init ds opts allow = Ok it -> advance k it = Some (pre, self) ->
  wf self /\ _dataset self = ds /\ _allow_nones self = allow /\
  _prefetch_buffer_size self = ReadOptions.prefetch_buffer_size opts /\
  _dataset_length self = _dataset_length it /\
  py_len (ds_len ds) = Ok (_dataset_length it).
Proof.
  intros Hinit Hadv.
  destruct (init_spec ds opts allow it Hinit) as (Hwf & _ & Hd & Ha & _ & HB & HL).
  destruct (advance_spec k it pre self Hwf Hadv) as (Hwfk & (Hd' & HL' & HB' & Ha') & _).
  repeat split; try apply Hwfk; congruence.
Qed.

Lemma advance_last k self pre s :
  advance (S k) self = Some (pre, s) ->
  exists pre' element s',
    advance k self = Some (pre', s') /\
    next s' = Some (Yield element s) /\
    pre = pre' ++ [element].
Proof.
  revert self pre. induction k as [|k IH]; intros self pre.
  - cbn [advance]. destruct (next self) as [[element s1|?|? ?]|] eqn:Hn; try discriminate.
    intros [= <- <-]. exists [], element, self. rewrite Hn. auto.
  - change (advance (S (S k)) self) with
      (match next self with
       | Some (Yield element self) =>
           match advance (S k) self with
           | Some (l, s) => Some (element :: l, s)
           | None => None
           end
       | _ => None
       end).
    destruct (next self) as [[element s1|?|? ?]|] eqn:Hn; try discriminate.
    destruct (advance (S k) s1) as [[l s2]|] eqn:Hadv; [|discriminate].
    intros [= <- <-].
    destruct (IH s1 l Hadv) as (pre' & el & s' & Hk & Hlast & ->).
    exists (element :: pre'), el, s'. split; [|auto].
    cbn [advance]. rewrite Hn, Hk. reflexivity.
Qed.

Lemma py_range_length (a b : Z) : length (py_range a b) = Z.to_nat (b - a).
Proof. unfold py_range. rewrite length_map, length_seq. reflexivity. Qed.

Lemma init_inv (ds : LazyMapDataset T) opts allow it :
  init ds opts allow = Ok it ->
  exists n,
    py_len (ds_len ds) = Ok n /\ 0 <= n /\
    it = {| _dataset := ds; _dataset_length := n; _next_index := 0;
            _buffer := None;
            _prefetch_buffer_size := ReadOptions.prefetch_buffer_size opts;
            _allow_nones := allow; submitted := [] |}.
Proof.
  unfold init. destruct (py_len (ds_len ds)) as [n|] eqn:Hlen; [|discriminate].
  cbn [bind]. intros H. exists n. split; [reflexivity|]. split.
  - unfold py_len in Hlen. destruct (ds_len ds); [|discriminate]. cbn in Hlen.
    destruct (Z.ltb_spec a 0); [discriminate|]. injection Hlen as <-. lia.
  - destruct (0 <? ReadOptions.prefetch_buffer_size opts);
      [destruct (ReadOptions.num_threads opts <=? 0)|]; congruence.
Qed.

(** X1: on an iterator reached from a fresh one by successful calls,
    [__next__] reads the dataset from the cursor on, passes over [None]s
    (only when [allow_nones] is false), and ends at the first index [j]
    below the length where the element can be delivered (it returns it
    and [next_index] becomes [j + 1]) or where the dataset raises (it
    raises the same exception and [next_index] stays [j]); when it finds
    no such index it raises [StopIteration] with [next_index] at the
    length. *)
Theorem next_returns_first_deliverable (ds : LazyMapDataset T) opts allow
    (it self : Prefetch.t T) k pre :
  init ds opts allow = Ok it -> advance k it = Some (pre, self) ->
  match next self with
  | None => False
  | Some (Yield element s1) =>
      exists j,
        _next_index self <= j < _dataset_length it /\
        ds_getitem ds j = Ok element /\
        (allow = true \/ element <> None) /\
        (forall i, _next_index self <= i < j ->
           allow = false /\ ds_getitem ds i = Ok None) /\
        get_state s1 = {[ "next_index" := j + 1 ]}
  | Some (StopIteration s1) =>
      (forall i, _next_index self <= i < _dataset_length it ->
         allow = false /\ ds_getitem ds i = Ok None) /\
      get_state s1 = {[ "next_index" := _dataset_length it ]}
  | Some (Raised e s1) =>
      exists j,
        _next_index self <= j < _dataset_length it /\
        ds_getitem ds j = Raise e /\
        (forall i, _next_index self <= i < j ->
           allow = false /\ ds_getitem ds i = Ok None) /\
        get_state s1 = {[ "next_index" := j ]}
  end.
Proof.
  intros Hinit Hadv.
  destruct (reachable_spec ds opts allow it k pre self Hinit Hadv)
    as (Hwf & Hd & Ha & _ & HL & _).
  pose proof (next_cursor self Hwf) as H. rewrite Hd, Ha, HL in H.
  destruct (next self) as [[element s1|s1|e s1]|]; [| | |exact H].
  - destruct H as (j & Hj & Hg & Hdel & Hskip & Hi & _).
    exists j. unfold get_state. rewrite Hi. auto.
  - destruct H as (Hskip & Hi). unfold get_state. rewrite Hi. auto.
  - destruct H as (j & Hj & Hg & Hskip & Hi).
    exists j. unfold get_state. rewrite Hi. auto.
Qed.

(** X2: in buffered mode, on an iterator reached from a fresh one by
    calls of [__next__] that all returned an element (at least one call,
    none raised), the buffer holds exactly the futures of the indices
    [next_index, ..., min(next_index + B, length) - 1], in this order; so
    it holds [min(B, length - next_index)] futures, never more than [B].
    Once a call has raised this need not hold any more, see
    [window_lost_after_error]. *)
Theorem prefetch_window_after_next (ds : LazyMapDataset T) opts allow
    (it self : Prefetch.t T) k pre :
  0 < ReadOptions.prefetch_buffer_size opts ->
  init ds opts allow = Ok it -> advance (S k) it = Some (pre, self) ->
  _buffer self =
    Some (py_range (_next_index self)
            (Z.min (_next_index self + ReadOptions.prefetch_buffer_size opts)
                   (_dataset_length it))) /\
  forall buffer, _buffer self = Some buffer ->
    Z.of_nat (length buffer)
    = Z.min (ReadOptions.prefetch_buffer_size opts)
            (_dataset_length it - _next_index self).
Proof.
  intros HB Hinit Hadv.
  destruct (advance_last k it pre self Hadv) as (pre' & element & s' & Hk & Hlast & _).
  destruct (reachable_spec ds opts allow it k pre' s' Hinit Hk)
    as (Hwf & _ & _ & HB' & HL & _).
  pose proof (next_cursor s' Hwf) as H. rewrite Hlast, HB', HL in H.
  destruct H as (j & Hj & _ & _ & _ & Hi & Hbuf). specialize (Hbuf HB).
  rewrite Hi. split; [exact Hbuf|].
  intros buffer Hb. rewrite Hbuf in Hb. injection Hb as <-.
  rewrite py_range_length. lia.
Qed.

(** After a call that raised, the buffer is no longer the window: over
    [faulty4] with a buffer of 2 the calls give 0, the error of index 1,
    then 2, and the buffer is then [[3; 3]] with [next_index = 2]. *)
Example window_lost_after_error :
  match next (Examples.fresh MoreExamples.faulty4 4 2 false) with
  | Some (Yield e0 s1) =>
      match next s1 with
      | Some (Raised err s2) =>
          match next s2 with
          | Some (Yield e2 s3) =>
              e0 = Some 0 /\ err = OtherError 7 /\ e2 = Some 2 /\
              _next_index s3 = 2 /\ _buffer s3 = Some [3; 3]
          | _ => False
          end
      | _ => False
      end
  | _ => False
  end.
Proof. vm_compute. repeat split. Qed.

(** X3: with [allow_nones = True], after [k] successful calls of
    [__next__] on a fresh iterator, [get_state()] is
    [{"next_index": k}] and the [k] elements delivered are
    [dataset[0], ..., dataset[k-1]], [None]s included. *)
Theorem get_state_counts_elements (ds : LazyMapDataset T) opts
    (it itk : Prefetch.t T) k pre :
  init ds opts true = Ok it -> advance k it = Some (pre, itk) ->
  get_state itk = {[ "next_index" := Z.of_nat k ]} /\
  length pre = k /\
  forall (j : nat) element, pre !! j = Some element ->
    ds_getitem ds (Z.of_nat j) = Ok element.
Proof.
  intros Hinit. revert pre itk. induction k as [|k IH]; intros pre itk Hadv.
  - cbn in Hadv. injection Hadv as <- <-.
    destruct (init_spec ds opts true it Hinit) as (_ & _ & _ & _ & Hi & _).
    unfold get_state. rewrite Hi. split; [reflexivity|]. split; [reflexivity|].
    intros j element H. destruct j; discriminate.
  - destruct (advance_last k it pre itk Hadv) as (pre' & element & s' & Hk & Hlast & ->).
    destruct (IH pre' s' Hk) as (Hst & Hlen & Hpre).
    destruct (reachable_spec ds opts true it k pre' s' Hinit Hk)
      as (Hwf & Hd & Ha & _ & HL & _).
    pose proof (next_cursor s' Hwf) as H. rewrite Hlast, Hd, Ha, HL in H.
    destruct H as (j & Hj & Hg & _ & Hskip & Hi & _).
    assert (Hcur : _next_index s' = Z.of_nat k).
    { unfold get_state in Hst.
      apply (f_equal (fun m : gmap string Z => m !! "next_index")) in Hst.
      rewrite !lookup_singleton_eq in Hst. congruence. }
    assert (j = Z.of_nat k) as ->.
    { destruct (Z.eq_dec j (Z.of_nat k)) as [|Hne]; [assumption|].
      destruct (Hskip (Z.of_nat k) ltac:(lia)) as [? _]. discriminate. }
    unfold get_state. rewrite Hi. split; [f_equal; lia|].
    split; [rewrite length_app, Hlen; cbn; lia|].
    intros i el Hl. destruct (decide (i < k)%nat) as [Hlt|Hge].
    + apply Hpre. rewrite lookup_app_l in Hl by lia. exact Hl.
    + rewrite lookup_app_r in Hl by lia.
      destruct (i - length pre')%nat as [|?] eqn:E; [|destruct n; discriminate].
      cbn in Hl. injection Hl as <-.
      replace (Z.of_nat i) with (Z.of_nat k); [exact Hg|].
      lia.
Qed.

Lemma consume_exhausted_cursor fuel self l s :
  wf self -> consume fuel self = (l, Exhausted, s) ->
  _next_index s = _dataset_length self /\ _dataset_length s = _dataset_length self.
Proof.
  revert self l. induction fuel as [|fuel IH]; intros self l Hwf; [discriminate|].
  cbn [consume].
  pose proof (next_spec self Hwf) as Hs. pose proof (next_cursor self Hwf) as Hc.
  destruct (next self) as [[element s1|s1|e s1]|]; try discriminate.
  - destruct Hs as (Hwf1 & (_ & HL & _) & _).
    destruct (consume fuel s1) as [[l1 o1] s2] eqn:Hcons.
    intros [= <- -> <-]. destruct (IH s1 l1 Hwf1 Hcons) as [? ?]. split; congruence.
  - intros [= <- <-]. destruct Hs as (_ & (_ & HL & _) & _). destruct Hc as [_ Hi].
    split; congruence.
Qed.

(** X4: once a loop over a fresh iterator has ended with
    [StopIteration], the iterator stays exhausted: [get_state()] is
    [{"next_index": length}], and every further [__next__] raises
    [StopIteration] again and leaves the iterator as it is. *)
Theorem exhausted_stays_exhausted (ds : LazyMapDataset T) opts allow
    (it final : Prefetch.t T) fuel l :
  init ds opts allow = Ok it ->
  consume fuel it = (l, Exhausted, final) ->
  get_state final = {[ "next_index" := _dataset_length it ]} /\
  next final = Some (StopIteration final) /\
  forall fuel', (0 < fuel')%nat -> consume fuel' final = ([], Exhausted, final).
Proof.
  intros Hinit Hcons.
  destruct (init_spec ds opts allow it Hinit) as (Hwf & _).
  destruct (consume_exhausted_cursor fuel it l final Hwf Hcons) as [Hi HL].
  assert (Hnext : next final = Some (StopIteration final))
    by (apply next_at_end; congruence).
  split; [unfold get_state; rewrite Hi; reflexivity|]. split; [exact Hnext|].
  intros [|fuel'] Hf; [lia|]. cbn [consume]. rewrite Hnext. reflexivity.
Qed.

(** X5: [set_state] does not check the index.  In buffered mode, after
    [set_state({"next_index": i})] with [i] beyond the length, [__next__]
    raises [IndexError] (the prefetch window is empty and [popleft] fails),
    not [StopIteration], and does so at every further call; [next_index]
    stays [i]. *)
Theorem restore_past_end_buffered (ds : LazyMapDataset T) opts allow
    (it : Prefetch.t T) (i : Z) :
  init ds opts allow = Ok it ->
  0 < ReadOptions.prefetch_buffer_size opts ->
  _dataset_length it < i ->
  exists restored failed,
    set_state it {[ "next_index" := i ]} = Ok restored /\
    next restored = Some (Raised IndexError failed) /\
    next failed = Some (Raised IndexError failed) /\
    get_state failed = {[ "next_index" := i ]}.
Proof.
  intros Hinit HB Hi.
  destruct (init_inv ds opts allow it Hinit) as (n & _ & Hn & ->).
  cbn [_dataset_length] in Hi.
  unfold set_state. rewrite lookup_singleton_eq.
  cbn [with_next_index _prefetch_buffer_size _dataset _dataset_length _next_index
       _buffer _allow_nones submitted].
  destruct (Z.ltb_spec 0 (ReadOptions.prefetch_buffer_size opts)) as [_|?]; [|lia].
  assert (Hstep : forall buf log,
            (buf = None \/ buf = Some []) ->
            loop_body {| _dataset := ds; _dataset_length := n; _next_index := i;
                         _buffer := buf;
                         _prefetch_buffer_size := ReadOptions.prefetch_buffer_size opts;
                         _allow_nones := allow; submitted := log |}
            = Throw IndexError
                {| _dataset := ds; _dataset_length := n; _next_index := i;
                   _buffer := Some [];
                   _prefetch_buffer_size := ReadOptions.prefetch_buffer_size opts;
                   _allow_nones := allow; submitted := log |}).
  { intros buf log Hbuf. unfold loop_body. cbn.
    destruct (Z.eqb_spec i n); [lia|].
    destruct (Z.ltb_spec 0 (ReadOptions.prefetch_buffer_size opts)) as [_|?]; [|lia].
    rewrite py_range_nil by lia.
    destruct Hbuf as [-> | ->]; cbn; rewrite app_nil_r; reflexivity. }
  exists {| _dataset := ds; _dataset_length := n; _next_index := i;
            _buffer := None;
            _prefetch_buffer_size := ReadOptions.prefetch_buffer_size opts;
            _allow_nones := allow; submitted := [] |},
         {| _dataset := ds; _dataset_length := n; _next_index := i;
            _buffer := Some [];
            _prefetch_buffer_size := ReadOptions.prefetch_buffer_size opts;
            _allow_nones := allow; submitted := [] |}.
  split; [reflexivity|].
  unfold next. cbn [_dataset_length _next_index].
  replace (Z.to_nat (n - i)) with O by lia. cbn [next_loop].
  rewrite !Hstep by auto. auto.
Qed.

(** X6: in synchronous mode, after [set_state({"next_index": i})] with
    [i] beyond the length, [__next__] does not stop: it reads
    [dataset[i]] and, when that element can be delivered, returns it and
    moves [next_index] to [i + 1]. *)
Theorem restore_past_end_synchronous (ds : LazyMapDataset T) opts allow
    (it : Prefetch.t T) (i : Z) element :
  init ds opts allow = Ok it ->
  ReadOptions.prefetch_buffer_size opts <= 0 ->
  _dataset_length it < i ->
  ds_getitem ds i = Ok element ->
  allow = true \/ element <> None ->
  exists restored s1,
    set_state it {[ "next_index" := i ]} = Ok restored /\
    next restored = Some (Yield element s1) /\
    get_state s1 = {[ "next_index" := i + 1 ]}.
Proof.
  intros Hinit HB Hi Hget Hdel.
  destruct (init_inv ds opts allow it Hinit) as (n & _ & Hn & ->).
  cbn [_dataset_length] in Hi.
  unfold set_state. rewrite lookup_singleton_eq.
  cbn [with_next_index _prefetch_buffer_size _dataset _dataset_length _next_index
       _buffer _allow_nones submitted].
  destruct (Z.ltb_spec 0 (ReadOptions.prefetch_buffer_size opts)) as [?|_]; [lia|].
  eexists _, _. split; [reflexivity|].
  unfold next. cbn [_dataset_length _next_index].
  replace (Z.to_nat (n - i)) with O by lia. cbn [next_loop].
  unfold loop_body. cbn.
  destruct (Z.eqb_spec i n); [lia|].
  destruct (Z.ltb_spec 0 (ReadOptions.prefetch_buffer_size opts)) as [?|_]; [lia|].
  rewrite Hget. unfold deliver. cbn.
  assert (allow || bool_decide (is_Some element) = true) as ->.
  { destruct Hdel as [-> | Hne]; [reflexivity|].
    apply orb_true_iff. right. apply bool_decide_eq_true.
    destruct element; [eauto | contradiction]. }
  split; reflexivity.
Qed.

(** X7: in buffered mode, when the dataset raises at the cursor's index
    [i], [__next__] raises that exception and leaves [next_index] at [i],
    but the failed future is gone from the buffer: a second [__next__]
    does not read index [i] again, it delivers the element of index
    [i + 1] and moves [next_index] to [i + 1]. *)
Theorem retry_after_error_buffered (ds : LazyMapDataset T) opts allow
    (it self : Prefetch.t T) k pre e element :
  init ds opts allow = Ok it -> advance k it = Some (pre, self) ->
  0 < ReadOptions.prefetch_buffer_size opts ->
  ds_getitem ds (_next_index self) = Raise e ->
  _next_index self + 1 < _dataset_length it ->
  ds_getitem ds (_next_index self + 1) = Ok element ->
  allow = true \/ element <> None ->
  exists s1 s2,
    next self = Some (Raised e s1) /\
    get_state s1 = {[ "next_index" := _next_index self ]} /\
    next s1 = Some (Yield element s2) /\
    get_state s2 = {[ "next_index" := _next_index self + 1 ]}.
Proof.
  intros Hinit Hadv HB Hfail Hlt Hget Hdel.
  destruct (reachable_spec ds opts allow it k pre self Hinit Hadv)
    as (Hwf & Hd & Ha & HB' & HL & _).
  rewrite <- HB' in HB. rewrite <- HL in Hlt. clear HB' HL Hinit Hadv.
  destruct (loop_body_window self Hwf HB ltac:(lia))
    as (s1 & (Hd1 & HL1 & HB1 & Ha1) & Hi1 & Hbuf1 & Hbody).
  rewrite Hd, Hfail in Hbody.
  exists s1.
  assert (Hdeliver : allow || bool_decide (is_Some element) = true).
  { destruct Hdel as [-> | Hne]; [reflexivity|].
    apply orb_true_iff. right. apply bool_decide_eq_true.
    destruct element; [eauto | contradiction]. }
  destruct self as [ds0 L i buf B allow0 log]. cbn in *. subst ds0 allow0.
  destruct s1 as [ds1 L1 i1 buf1 B1 allow1 log1]. cbn in *.
  subst ds1 L1 i1 B1 allow1 buf1.
  rewrite (py_range_cons (i + 1)) in * by lia.
  destruct (i + B <? L) eqn:E.
  all: eexists; split;
    [ unfold next; cbn [_dataset_length _next_index];
      replace (Z.to_nat (L - i)) with (S (Z.to_nat (L - (i + 1)))) by lia;
      cbn [next_loop]; rewrite Hbody; reflexivity |].
  all: split; [reflexivity|].
  all: split;
    [ unfold next; cbn [_dataset_length _next_index];
      replace (Z.to_nat (L - i)) with (S (Z.to_nat (L - (i + 1)))) by lia;
      cbn [next_loop]; unfold loop_body; cbn;
      destruct (Z.eqb_spec i L); [lia|];
      destruct (Z.ltb_spec 0 B); [|lia];
      rewrite E; cbn; rewrite Hget; unfold deliver; cbn;
      rewrite Hdeliver; reflexivity
    | reflexivity ].
Qed.

(** X8: in synchronous mode, when the dataset raises at the cursor's
    index, [__next__] raises that exception, leaves [next_index] where it
    is, and a second [__next__] reads the same index and raises the same
    exception again. *)
Theorem retry_after_error_synchronous (ds : LazyMapDataset T) opts allow
    (it self : Prefetch.t T) k pre e :
  init ds opts allow = Ok it -> advance k it = Some (pre, self) ->
  ReadOptions.prefetch_buffer_size opts <= 0 ->
  _next_index self < _dataset_length it ->
  ds_getitem ds (_next_index self) = Raise e ->
  exists s1 s2,
    next self = Some (Raised e s1) /\
    get_state s1 = {[ "next_index" := _next_index self ]} /\
    next s1 = Some (Raised e s2) /\
    get_state s2 = {[ "next_index" := _next_index self ]}.
Proof.
  intros Hinit Hadv HB Hlt Hfail.
  destruct (reachable_spec ds opts allow it k pre self Hinit Hadv)
    as (Hwf & Hd & Ha & HB' & HL & _).
  rewrite <- HB' in HB. rewrite <- HL in Hlt. clear HB' HL Hinit Hadv.
  destruct self as [ds0 L i buf B allow0 log]. cbn in *. subst ds0 allow0.
  assert (Hstep : forall log',
            next {| _dataset := ds; _dataset_length := L; _next_index := i;
                    _buffer := buf; _prefetch_buffer_size := B;
                    _allow_nones := allow; submitted := log' |}
            = Some (Raised e
                {| _dataset := ds; _dataset_length := L; _next_index := i;
                   _buffer := buf; _prefetch_buffer_size := B;
                   _allow_nones := allow; submitted := log' ++ [i] |})).
  { intros log'. unfold next. cbn [_dataset_length _next_index].
    replace (Z.to_nat (L - i)) with (S (Z.to_nat (L - (i + 1)))) by lia.
    cbn [next_loop]. unfold loop_body. cbn.
    destruct (Z.eqb_spec i L); [lia|].
    destruct (Z.ltb_spec 0 B); [lia|]. rewrite Hfail. reflexivity. }
  eexists _, _. split; [apply Hstep|]. split; [reflexivity|].
  split; [apply Hstep | reflexivity].
Qed.

(** X9: the constructor of [PrefetchLazyDatasetIterator] raises exactly
    when [len(dataset)] raises, or [__len__] is negative, or
    [prefetch_buffer_size > 0] with [num_threads <= 0]; with
    [prefetch_buffer_size <= 0] no executor is built and [num_threads] is
    not looked at. *)
Theorem init_rejected_iff (ds : LazyMapDataset T) opts allow :
  rejected (init ds opts allow) <->
  (exists e, ds_len ds = Raise e) \/
  (exists n, ds_len ds = Ok n /\ n < 0) \/
  (0 < ReadOptions.prefetch_buffer_size opts /\ ReadOptions.num_threads opts <= 0).
Proof.
  unfold init, py_len, rejected.
  destruct (ds_len ds) as [n|e0]; cbn.
  - destruct (Z.ltb_spec n 0); cbn.
    + split; [intros _; right; left; eauto | eauto].
    + destruct (Z.ltb_spec 0 (ReadOptions.prefetch_buffer_size opts)).
      * destruct (Z.leb_spec (ReadOptions.num_threads opts) 0).
        -- split; [auto | eauto].
        -- split; [intros [? ?]; discriminate|].
           intros [[? ?]|[(? & [= <-] & ?)|[? ?]]]; try discriminate; lia.
      * split; [intros [? ?]; discriminate|].
        intros [[? ?]|[(? & [= <-] & ?)|[? ?]]]; try discriminate; lia.
  - split; [eauto | eauto].
Qed.

(** X10: a state taken from an iterator built with some read options,
    after [k] calls of [__next__] on the fresh iterator that all returned
    an element (none raised), can be restored on a fresh iterator over
    the same dataset built with other read options (another buffer size,
    another thread count): the restored iterator delivers the same
    remaining elements as the original and ends the same way. *)
Theorem restore_across_read_options (ds : LazyMapDataset T) opts1 opts2 allow
    (it1 itk fresh2 : Prefetch.t T) k pre fuel :
  init ds opts1 allow = Ok it1 ->
  advance k it1 = Some (pre, itk) ->
  init ds opts2 allow = Ok fresh2 ->
  (Z.to_nat (_dataset_length it1) < fuel)%nat ->
  exists restored,
    set_state fresh2 (get_state itk) = Ok restored /\
    (consume fuel restored).1 = (consume fuel itk).1 /\
    (consume fuel itk).1.2 <> Unfinished.
Proof.
  intros H1 Hadv H2 Hf.
  destruct (reachable_spec ds opts1 allow it1 k pre itk H1 Hadv)
    as (Hwfk & Hdk & Hak & _ & HLk & Hlen1).
  destruct (init_spec ds opts2 allow fresh2 H2) as (Hwf2 & _ & Hd2 & Ha2 & _ & _ & Hlen2).
  assert (HL : _dataset_length fresh2 = _dataset_length itk) by congruence.
  destruct (set_state_get_state fresh2 itk Hwfk Hwf2 HL)
    as (restored & Hset & Hwfr & (Hdr & HLr & _ & Har) & Hir).
  exists restored. split; [exact Hset|].
  destruct (consume_spec fuel restored Hwfr) as (s1 & -> & _).
  { destruct Hwfr as [? _]. lia. }
  destruct (consume_spec fuel itk Hwfk) as (s2 & -> & _).
  { destruct Hwfk as [? _]. lia. }
  cbn [fst snd]. split; [|apply read_from_finished].
  unfold remaining. rewrite Hdr, HLr, Har, Hir, Hd2, Ha2, HL, Hdk, Hak. reflexivity.
Qed.
End PrefetchCursor.

(** * More about Range and Shard *)

Lemma Range_read_from (r : Range.t) (l : Z) allow (n : nat) (i : Z) :
  Range.len r = Ok l -> 0 <= i -> i + Z.of_nat n <= l ->
  Prefetch.read_from (Range.as_dataset r) allow i n
  = (map (fun k => Some (Range.start r + k * Range.step r)) (py_range i (i + Z.of_nat n)),
     Prefetch.Exhausted).
Proof.
  intros Hlen. revert i. induction n as [|n IH]; intros i Hi Hn.
  - cbn. rewrite py_range_nil by lia. reflexivity.
  - cbn [Prefetch.read_from]. cbn [ds_getitem Range.as_dataset].
    rewrite (Range_getitem_pos r l i Hlen) by lia. cbn [bind].
    rewrite IH by lia. rewrite Z.mod_small by lia.
    rewrite orb_true_r || (rewrite bool_decide_eq_true_2 by eauto; rewrite orb_true_r).
    rewrite (py_range_cons i) by lia. cbn [map].
    replace (i + 1 + Z.of_nat n) with (i + Z.of_nat (S n)) by lia. reflexivity.
Qed.

(** X11: iterating [RangeLazyMapDataset(start, stop, step)
    .to_iter_dataset(read_options, allow_nones)] delivers
    [start, start + step, ..., start + (length - 1) * step], that is
    [list(range(start, stop, step))], then [StopIteration]; the buffer
    size of the iterator is the one of [read_options], and 0 (synchronous
    reads) with [read_options = None]. *)
Theorem iterating_a_Range (default_num_threads : Z) (r : Range.t)
    (read_options : option ReadOptions.t) (allow_nones : bool)
    (l : Z) (it : Prefetch.t Z) (fuel : nat) :
  Range.len r = Ok l ->
  IterDataset.iter
    (IterDataset.Range_to_iter_dataset default_num_threads r read_options allow_nones)
  = Ok it ->
  (Z.to_nat l < fuel)%nat ->
  (Prefetch.consume fuel it).1
  = (map (fun k => Some (Range.start r + k * Range.step r)) (py_range 0 l),
     Prefetch.Exhausted) /\
  Prefetch._prefetch_buffer_size it
  = match read_options with
    | Some o => ReadOptions.prefetch_buffer_size o
    | None => 0
    end.
Proof.
  intros Hlen Hiter Hf. unfold IterDataset.iter in Hiter. cbn in Hiter.
  destruct (init_spec _ _ _ _ Hiter) as (_ & _ & _ & _ & _ & HB & HL).
  split; [|rewrite HB; destruct read_options; reflexivity].
  assert (Hl : 0 <= l) by (apply (py_range_len_nonneg _ _ _ _ Hlen)).
  assert (HLen : Prefetch._dataset_length it = l).
  { cbn in HL. unfold py_len, Range.len in *. rewrite Hlen in HL. cbn in HL.
    destruct (Z.ltb_spec l 0); [lia|]. congruence. }
  rewrite (consume_fresh _ _ _ _ _ Hiter) by lia.
  rewrite HLen.
  rewrite (Range_read_from r l allow_nones (Z.to_nat l) 0 Hlen) by lia.
  repeat f_equal. lia.
Qed.

Lemma iterating_a_Range_witness :
  (Prefetch.consume 5 (Examples.fresh (Range.as_dataset (Range.init 0 (Some 10) 3)) 4 0 false)).1
  = (map (fun k => Some (Range.start (Range.init 0 (Some 10) 3)
                         + k * Range.step (Range.init 0 (Some 10) 3)))
         (py_range 0 4),
     Prefetch.Exhausted) /\
  Prefetch._prefetch_buffer_size
    (Examples.fresh (Range.as_dataset (Range.init 0 (Some 10) 3)) 4 0 false)
  = 0.
Proof.
  apply (iterating_a_Range 16 (Range.init 0 (Some 10) 3) None false 4
           (Examples.fresh (Range.as_dataset (Range.init 0 (Some 10) 3)) 4 0 false) 5).
  - reflexivity.
  - reflexivity.
  - simpl. lia.
Defined.

(** X12: every element a Range of positive length returns, at any
    integer index, is [start + k * step] for some [0 <= k < length], and
    lies in [[start, stop)] for a positive step, in [(stop, start]] for a
    negative step. *)
Theorem Range_getitem_in_bounds (r : Range.t) (l i v : Z) :
  Range.len r = Ok l -> 0 < l -> Range.getitem r i = Ok v ->
  (exists k, 0 <= k < l /\ v = Range.start r + k * Range.step r) /\
  (0 < Range.step r -> Range.start r <= v < Range.stop r) /\
  (Range.step r < 0 -> Range.stop r < v <= Range.start r).
Proof.
  intros Hlen Hl Hget.
  rewrite (Range_getitem_pos r l i Hlen Hl) in Hget. injection Hget as <-.
  pose proof (Z.mod_pos_bound i l Hl) as Hk.
  set (k := i mod l) in *.
  split; [exists k; auto|].
  unfold Range.len, Range._length, py_range_len in Hlen.
  destruct (Z.eqb_spec (Range.step r) 0) as [|Hs]; [discriminate|].
  destruct (Z.ltb_spec 0 (Range.step r)) as [Hpos|Hneg]; injection Hlen as Hlen.
  - split; [|lia]. intros _.
    destruct (Z.ltb_spec (Range.start r) (Range.stop r)); [|lia].
    pose proof (Z.mul_div_le (Range.stop r - Range.start r - 1) (Range.step r) Hpos).
    nia.
  - split; [lia|]. intros _.
    destruct (Z.ltb_spec (Range.stop r) (Range.start r)); [|lia].
    pose proof (Z.mul_div_le (Range.start r - Range.stop r - 1) (- Range.step r) ltac:(lia)).
    nia.
Qed.

Lemma Range_getitem_in_bounds_witness :
  (exists k, 0 <= k < 4 /\ 3 = Range.start (Range.init 0 (Some 10) 3)
                              + k * Range.step (Range.init 0 (Some 10) 3)) /\
  (0 < Range.step (Range.init 0 (Some 10) 3) ->
   Range.start (Range.init 0 (Some 10) 3) <= 3 < Range.stop (Range.init 0 (Some 10) 3)) /\
  (Range.step (Range.init 0 (Some 10) 3) < 0 ->
   Range.stop (Range.init 0 (Some 10) 3) < 3 <= Range.start (Range.init 0 (Some 10) 3)).
Proof.
  apply (Range_getitem_in_bounds (Range.init 0 (Some 10) 3) 4 9 3).
  - reflexivity.
  - lia.
  - reflexivity.
Defined.

(** X13: a Range of positive length is periodic in its index, with its
    length as period: [at(i + k * length) = at(i)] for all integers [i]
    and [k]. *)
Theorem Range_getitem_periodic (r : Range.t) (l i k : Z) :
  Range.len r = Ok l -> 0 < l ->
  Range.getitem r (i + k * l) = Range.getitem r i.
Proof.
  intros Hlen Hl. rewrite !(Range_getitem_pos r l) by assumption.
  rewrite Z.mod_add by lia. reflexivity.
Qed.

Lemma Range_getitem_periodic_witness :
  Range.getitem (Range.init 0 (Some 10) 3) (1 + 5 * 4)
  = Range.getitem (Range.init 0 (Some 10) 3) 1.
Proof.
  apply (Range_getitem_periodic (Range.init 0 (Some 10) 3) 4 1 5).
  - reflexivity.
  - lia.
Defined.

Lemma Shard_read_from {T : Type} (sh : Shard.t T) (N : Z) allow (n : nat) (i : Z) :
  py_len (ds_len (Shard._parent sh)) = Ok N ->
  0 <= i -> i + Z.of_nat n <= Shard._end sh - Shard._start sh ->
  Prefetch.read_from (Shard.as_dataset sh) allow i n
  = Prefetch.read_from (Shard._parent sh) allow (Shard._start sh + i) n.
Proof.
  intros HN. revert i. induction n as [|n IH]; intros i Hi Hn; [reflexivity|].
  cbn [Prefetch.read_from]. cbn [ds_getitem Shard.as_dataset].
  rewrite (Shard_getitem_pos sh (Shard._end sh - Shard._start sh) N i)
    by (try reflexivity; try assumption; lia).
  rewrite Z.div_small, Z.mod_small by lia.
  replace (0 * N + i + Shard._start sh) with (Shard._start sh + i) by lia.
  rewrite IH by lia.
  replace (Shard._start sh + (i + 1)) with (Shard._start sh + i + 1) by lia.
  reflexivity.
Qed.

(** X14: iterating a [ShardLazyDataset] with [_start <= _end] delivers
    what reading its parent at the indices [_start, ..., _end - 1] one
    after the other delivers, and ends the same way; an empty shard
    delivers nothing and never reaches the division by its length. *)
Theorem iterating_a_Shard {T : Type} (sh : Shard.t T) (N : Z) opts allow
    (it : Prefetch.t T) (fuel : nat) :
  py_len (ds_len (Shard._parent sh)) = Ok N ->
  Shard._start sh <= Shard._end sh ->
  Prefetch.init (Shard.as_dataset sh) opts allow = Ok it ->
  (Z.to_nat (Shard._end sh - Shard._start sh) < fuel)%nat ->
  (Prefetch.consume fuel it).1
  = Prefetch.read_from (Shard._parent sh) allow (Shard._start sh)
      (Z.to_nat (Shard._end sh - Shard._start sh)).
Proof.
  intros HN Hse Hinit Hf.
  destruct (init_spec _ _ _ _ Hinit) as (_ & _ & _ & _ & _ & _ & HL).
  assert (HLen : Prefetch._dataset_length it = Shard._end sh - Shard._start sh).
  { cbn in HL. unfold py_len, Shard.len in HL. cbn in HL.
    destruct (Z.ltb_spec (Shard._end sh - Shard._start sh) 0); [lia|]. congruence. }
  rewrite (consume_fresh _ _ _ _ _ Hinit) by lia. rewrite HLen.
  rewrite (Shard_read_from sh N allow _ 0 HN) by lia.
  f_equal. lia.
Qed.

(** X15: a non-empty Shard [[s, e)] of a Range of positive length [N]
    returns at any integer index [i] the Range's element at
    [((i mod (e - s)) + s) mod N]; so the Shard is periodic with its own
    length as period. *)
Theorem Shard_of_Range_periodic (r : Range.t) (s e N i : Z) :
  Range.len r = Ok N -> 0 < N -> s < e ->
  let sh := {| Shard._parent := Range.as_dataset r; Shard._start := s; Shard._end := e |} in
  Shard.getitem sh i
  = Ok (Some (Range.start r + ((i mod (e - s) + s) mod N) * Range.step r)) /\
  Shard.getitem sh i = Shard.getitem sh (i mod (e - s)).
Proof.
  intros Hlen HN Hse sh.
  assert (Hp : py_len (ds_len (Shard._parent sh)) = Ok N).
  { cbn. unfold py_len, Range.len in *. rewrite Hlen. cbn.
    destruct (Z.ltb_spec N 0); [lia | reflexivity]. }
  assert (Hform : forall j,
            Shard.getitem sh j
            = Ok (Some (Range.start r + ((j mod (e - s) + s) mod N) * Range.step r))).
  { intros j.
    rewrite (Shard_getitem_pos sh (e - s) N j) by (try reflexivity; try assumption; lia).
    cbn [Shard._parent Shard._start sh ds_getitem Range.as_dataset].
    rewrite (Range_getitem_pos r N _ Hlen HN). cbn [bind].
    replace (j / (e - s) * N + j mod (e - s) + s)
      with (j mod (e - s) + s + j / (e - s) * N) by lia.
    rewrite Z.mod_add by lia. reflexivity. }
  split; [apply Hform|].
  rewrite !Hform. rewrite Z.mod_mod by lia. reflexivity.
Qed.

Lemma iterating_a_Shard_witness :
  (Prefetch.consume 3
     (Examples.fresh
        (Shard.as_dataset {| Shard._parent := Examples.range5;
                             Shard._start := 1; Shard._end := 3 |}) 2 0 false)).1
  = Prefetch.read_from Examples.range5 false 1 (Z.to_nat (3 - 1)).
Proof.
  apply (iterating_a_Shard
           {| Shard._parent := Examples.range5; Shard._start := 1; Shard._end := 3 |}
           5 (Examples.options 0 1) false
           (Examples.fresh
              (Shard.as_dataset {| Shard._parent := Examples.range5;
                                   Shard._start := 1; Shard._end := 3 |}) 2 0 false) 3).
  - reflexivity.
  - simpl. lia.
  - reflexivity.
  - simpl. lia.
Defined.

Lemma Shard_of_Range_periodic_witness :
  let sh := {| Shard._parent := Range.as_dataset (Range.init 0 (Some 10) 1);
               Shard._start := 2; Shard._end := 5 |} in
  Shard.getitem sh 7
  = Ok (Some (Range.start (Range.init 0 (Some 10) 1)
              + ((7 mod (5 - 2) + 2) mod 10) * Range.step (Range.init 0 (Some 10) 1))) /\
  Shard.getitem sh 7 = Shard.getitem sh (7 mod (5 - 2)).
Proof.
  apply (Shard_of_Range_periodic (Range.init 0 (Some 10) 1) 2 5 10 7).
  - reflexivity.
  - lia.
  - lia.
Defined.

(** * More about the process-prefetch dataset and its iterator *)

Lemma reaches_contains (q d : Multiprocess.dataset) :
  reaches q d ->
  Multiprocess.contains_multiprocess d = true ->
  Multiprocess.contains_multiprocess q = true.
Proof.
  induction 1 as [d|mp ps p d Hin Hr IH]; [auto|].
  intros Hd. specialize (IH Hd). cbn. apply orb_true_iff. right.
  apply existsb_exists. exists p. auto.
Qed.

(** X16: once a [MultiprocessPrefetchLazyIterDataset] has been built,
    building another one on any dataset that reaches the first through
    [parents] raises [ValueError], whatever [num_workers] is. *)
Theorem multiprocess_at_most_once (parent d q : Multiprocess.dataset)
    (opts opts' : Multiprocess.MultiprocessingOptions) :
  Multiprocess.init parent opts = Ok d ->
  reaches q d ->
  Multiprocess.init q opts' = Raise ValueError.
Proof.
  intros Hinit Hr.
  assert (Hd : Multiprocess.contains_multiprocess d = true).
  { unfold Multiprocess.init in Hinit.
    destruct (Multiprocess.num_workers opts <? 1); [discriminate|].
    destruct (Multiprocess._validate_parent_dataset parent); [|discriminate].
    injection Hinit as <-. reflexivity. }
  pose proof (reaches_contains q d Hr Hd) as Hq.
  unfold Multiprocess.init, Multiprocess._validate_parent_dataset.
  destruct (Multiprocess.num_workers opts' <? 1); [reflexivity|].
  rewrite validate_loop_spec. cbn [existsb]. rewrite Hq. reflexivity.
Qed.

Section ReplayFacts.
Context {T : Type}.
Implicit Types s t : Prefetch.t T.
Import Prefetch.

(** Two iterators over the same dataset with the cursor at the same
    place answer [__next__] alike, whatever their buffers hold. *)
Lemma next_equiv s s' :
  wf s -> wf s' -> same_config s s' -> _next_index s = _next_index s' ->
  match next s, next s' with
  | Some (Yield e1 t1), Some (Yield e2 t2) =>
      e1 = e2 /\ wf t1 /\ wf t2 /\ same_config t1 t2 /\
      _next_index t1 = _next_index t2
  | Some (StopIteration _), Some (StopIteration _) => True
  | Some (Raised e1 _), Some (Raised e2 _) => e1 = e2
  | _, _ => False
  end.
Proof.
  remember (Z.to_nat (_dataset_length s - _next_index s)) as n eqn:Hn.
  revert s s' Hn. induction n as [|n IH]; intros s s' Hn Hwf Hwf' Hc Hi.
  - destruct Hc as (Hd & HL & HB & Ha).
    assert (He : _next_index s = _dataset_length s) by (destruct Hwf; lia).
    rewrite (next_at_end s He), (next_at_end s') by congruence. exact I.
  - destruct Hc as (Hd & HL & HB & Ha).
    assert (Hlt : _next_index s < _dataset_length s) by lia.
    assert (Hlt' : _next_index s' < _dataset_length s') by congruence.
    destruct (next_step s Hwf Hlt) as (s1 & Hc1 & Hi1 & Hwf1 & _ & Hnext).
    destruct (next_step s' Hwf' Hlt') as (s1' & Hc1' & Hi1' & Hwf1' & _ & Hnext').
    rewrite Hnext, Hnext'. rewrite <- Hd, <- Hi, <- Ha.
    assert (Hc11 : same_config s1 s1').
    { destruct Hc1 as (? & ? & ? & ?), Hc1' as (? & ? & ? & ?).
      unfold same_config. repeat split; congruence. }
    destruct (ds_getitem (_dataset s) (_next_index s)) as [element|e]; [|reflexivity].
    destruct (_allow_nones s || bool_decide (is_Some element)).
    + repeat split; auto; try apply Hwf1; try apply Hwf1'; try apply Hc11. congruence.
    + apply IH; auto; try congruence.
      destruct Hc1 as (_ & -> & _). lia.
Qed.

Lemma advance_equiv k s s' pre t :
  wf s -> wf s' -> same_config s s' -> _next_index s = _next_index s' ->
  advance k s = Some (pre, t) ->
  exists t',
    advance k s' = Some (pre, t') /\
    wf t /\ wf t' /\ same_config t t' /\ _next_index t = _next_index t'.
Proof.
  revert s s' pre. induction k as [|k IH]; intros s s' pre Hwf Hwf' Hc Hi; cbn [advance].
  - intros [= <- <-]. exists s'. auto.
  - pose proof (next_equiv s s' Hwf Hwf' Hc Hi) as Hn.
    destruct (next s) as [[e1 t1|?|? ?]|]; try discriminate.
    destruct (next s') as [[e2 t2|?|? ?]|]; try contradiction.
    destruct Hn as (<- & Hwf1 & Hwf2 & Hc12 & Hi12).
    destruct (advance k t1) as [[l u]|] eqn:Hadv; [|discriminate].
    intros [= <- <-].
    destruct (IH t1 t2 l Hwf1 Hwf2 Hc12 Hi12 Hadv) as (t' & -> & ?).
    exists t'. auto.
Qed.

Lemma advance_split a b s pre t :
  advance (a + b) s = Some (pre, t) ->
  exists p1 s1 p2,
    advance a s = Some (p1, s1) /\ advance b s1 = Some (p2, t) /\ pre = p1 ++ p2.
Proof.
  revert s pre. induction a as [|a IH]; intros s pre; cbn [Nat.add advance].
  - intros H. exists [], s, pre. auto.
  - destruct (next s) as [[e1 t1|?|? ?]|]; try discriminate.
    destruct (advance (a + b) t1) as [[l u]|] eqn:Hadv; [|discriminate].
    intros [= <- <-].
    destruct (IH t1 l Hadv) as (p1 & s1 & p2 & -> & Hb & ->).
    exists (e1 :: p1), s1, p2. auto.
Qed.

Lemma advance_snoc k s pre t element u :
  advance k s = Some (pre, t) -> next t = Some (Yield element u) ->
  advance (S k) s = Some (pre ++ [element], u).
Proof.
  revert s pre. induction k as [|k IH]; intros s pre.
  - cbn [advance]. intros [= <- <-] ->. reflexivity.
  - intros Hadv Hn.
    change (advance (S k) s) with
      (match next s with
       | Some (Yield element self) =>
           match advance k self with
           | Some (l, s) => Some (element :: l, s)
           | None => None
           end
       | _ => None
       end) in Hadv.
    change (advance (S (S k)) s) with
      (match next s with
       | Some (Yield element self) =>
           match advance (S k) self with
           | Some (l, s) => Some (element :: l, s)
           | None => None
           end
       | _ => None
       end).
    destruct (next s) as [[e1 t1|?|? ?]|]; try discriminate.
    destruct (advance k t1) as [[l v]|] eqn:Hk; [|discriminate].
    injection Hadv as <- <-.
    rewrite (IH t1 l Hk Hn). reflexivity.
Qed.

(** The [n]-th tuple a worker yields is the [n]-th element its iterator
    delivers, with the iterator's state after it when the clock says so. *)
Lemma stream_lookup copy clock fuel k s (n : nat) tuple :
  MultiprocessIterator.stream copy clock fuel k s !! n = Some tuple ->
  exists pre t element u,
    advance n s = Some (pre, t) /\
    next t = Some (Yield element u) /\
    tuple = (copy element,
             if clock (k + n)%nat then Some (get_state u) else None).
Proof.
  revert k s n. induction fuel as [|fuel IH]; intros k s n; [discriminate|].
  cbn [MultiprocessIterator.stream].
  destruct (next s) as [[e1 t1|?|? ?]|] eqn:Hn; try discriminate.
  destruct n as [|n]; cbn [lookup list_lookup].
  - intros [= <-]. exists [], s, e1, t1. rewrite Nat.add_0_r. auto.
  - intros H. destruct (IH (S k) t1 n H) as (pre & t & element & u & Hadv & Hnext & ->).
    exists (e1 :: pre), t, element, u.
    cbn [advance]. rewrite Hn, Hadv.
    replace (k + S n)%nat with (S k + n)%nat by lia. auto.
Qed.
End ReplayFacts.

Section Replay.
Context {T : Type}.
Implicit Types s t : Prefetch.t T.
Import Prefetch.

Lemma str_inj (i j : Z) : MultiprocessIterator.str i = MultiprocessIterator.str j -> i = j.
Proof. unfold MultiprocessIterator.str. apply pretty_Z_inj. Qed.

Lemma init_loop_lookup (parent : IterDataset.t T) it0 indices ws its ws' its' (i : Z) :
  IterDataset.iter parent = Ok it0 ->
  MultiprocessIterator.init_loop parent indices ws its = Ok (ws', its') ->
  In i indices \/
    (ws !! MultiprocessIterator.str i = Some (get_state it0) /\
     its !! MultiprocessIterator.str i = Some 0) ->
  ws' !! MultiprocessIterator.str i = Some (get_state it0) /\
  its' !! MultiprocessIterator.str i = Some 0.
Proof.
  intros Hiter. revert ws its.
  induction indices as [|k indices IH]; intros ws its; cbn [MultiprocessIterator.init_loop].
  - intros [= <- <-] [[]|H]. exact H.
  - rewrite Hiter. cbn [bind]. intros Hloop Hi.
    apply (IH _ _ Hloop).
    destruct (Z.eq_dec k i) as [->|Hne].
    + right. rewrite !lookup_insert_eq. auto.
    + destruct Hi as [[?|Hin]|[Hw Hs]]; [contradiction | left; exact Hin |].
      right. rewrite !lookup_insert_ne by (intros H; apply str_inj in H; contradiction).
      auto.
Qed.

Lemma init_lookup (parent : IterDataset.t T) opts st0 (w : Z) :
  MultiprocessIterator.init parent opts = Ok st0 ->
  0 <= w < Multiprocess.num_workers opts ->
  MultiprocessIterator.workers_state st0 !! MultiprocessIterator.str w
  = Some {[ "next_index" := 0 ]} /\
  MultiprocessIterator.iterations_to_skip st0 !! MultiprocessIterator.str w = Some 0 /\
  MultiprocessIterator.last_worker_index st0 = -1.
Proof.
  unfold MultiprocessIterator.init. intros Hinit Hw.
  destruct (MultiprocessIterator.init_loop parent _ ∅ ∅) as [[ws its]|] eqn:Hloop;
    [|discriminate].
  injection Hinit as <-. cbn.
  assert (Hin : In w (py_range 0 (Multiprocess.num_workers opts)))
    by (apply py_range_In; lia).
  destruct (IterDataset.iter parent) as [it0|e] eqn:Hiter.
  - destruct (init_loop_lookup parent it0 _ _ _ _ _ w Hiter Hloop (or_introl Hin))
      as [Hws Hits].
    destruct (init_spec _ _ _ _ Hiter) as (_ & _ & _ & _ & Hi & _).
    unfold get_state in Hws. rewrite Hi in Hws. auto.
  - exfalso. destruct (py_range 0 (Multiprocess.num_workers opts)) as [|k l];
      [destruct Hin|].
    cbn in Hloop. rewrite Hiter in Hloop. discriminate.
Qed.

(** What the main process has on record for worker [w] once it has taken
    [j] tuples from it: the state after some [m <= j] of them, and the
    [j - m] taken since. *)
Lemma run_keeps_record (open : option T -> option T) copy clock fuel (w : Z)
    (itw0 : Prefetch.t T) handed :
  forall (st st' : MultiprocessIterator.state) (j n : nat),
  (exists (m : nat) pre itm prej itj,
      (m <= j)%nat /\
      advance m itw0 = Some (pre, itm) /\
      advance j itw0 = Some (prej, itj) /\
      MultiprocessIterator.workers_state st !! MultiprocessIterator.str w
      = Some (get_state itm) /\
      MultiprocessIterator.iterations_to_skip st !! MultiprocessIterator.str w
      = Some (Z.of_nat (j - m))) ->
  MultiprocessIterator.run open st handed = Ok st' ->
  (fun h : option T * option (gmap string Z) * Z => h.1.2)
    <$> filter (fun h => h.2 = w) handed
  = snd <$> take n (drop j (MultiprocessIterator.stream copy clock fuel 0 itw0)) ->
  (j + n <= length (MultiprocessIterator.stream copy clock fuel 0 itw0))%nat ->
  exists (m : nat) pre itm prej itj,
      (m <= j + n)%nat /\
      advance m itw0 = Some (pre, itm) /\
      advance (j + n) itw0 = Some (prej, itj) /\
      MultiprocessIterator.workers_state st' !! MultiprocessIterator.str w
      = Some (get_state itm) /\
      MultiprocessIterator.iterations_to_skip st' !! MultiprocessIterator.str w
      = Some (Z.of_nat (j + n - m)).
Proof.
  set (tuples := MultiprocessIterator.stream copy clock fuel 0 itw0).
  induction handed as [|[[element state] w'] handed IH]; intros st st' j n Hinv Hrun Hproj Hlen.
  - cbn in Hrun. injection Hrun as <-.
    assert (n = 0)%nat as ->.
    { apply (f_equal length) in Hproj. rewrite !length_fmap, length_take, length_drop in Hproj.
      cbn in Hproj. lia. }
    rewrite Nat.add_0_r. exact Hinv.
  - cbn [MultiprocessIterator.run] in Hrun.
    destruct (MultiprocessIterator.next open st element state w') as [[el' st1]|] eqn:Hnext;
      [|discriminate].
    cbn [bind snd] in Hrun.
    destruct Hinv as (m & pre & itm & prej & itj & Hm & Hadvm & Hadvj & Hws & Hits).
    rewrite filter_cons in Hproj. cbn [snd] in Hproj.
    destruct (decide (w' = w)) as [->|Hne].
    + (* a tuple of worker [w] *)
      rewrite fmap_cons in Hproj. cbn [fst snd] in Hproj.
      destruct n as [|n].
      { rewrite take_0 in Hproj. discriminate. }
      destruct (drop j tuples) as [|tup rest] eqn:Hdrop.
      { apply (f_equal length) in Hdrop. rewrite length_drop in Hdrop. cbn in Hdrop. lia. }
      cbn [take fmap list_fmap] in Hproj. injection Hproj as Hstate Hproj.
      assert (Hj : tuples !! j = Some tup).
      { rewrite <- (Nat.add_0_r j), <- lookup_drop, Hdrop. reflexivity. }
      assert (Hrest : rest = drop (S j) tuples).
      { rewrite <- (drop_drop tuples 1 j) || rewrite <- Nat.add_1_r, <- drop_drop.
        rewrite Hdrop. reflexivity. }
      destruct (stream_lookup copy clock fuel 0 itw0 j tup Hj)
        as (pre' & t & element' & u & Hadv' & Hnt & ->).
      assert (t = itj /\ pre' = prej) as [-> ->] by (split; congruence).
      pose proof (advance_snoc j itw0 prej itj element' u Hadvj Hnt) as HadvS.
      cbn [snd] in Hstate. cbn [Nat.add] in Hstate.
      replace (j + S n)%nat with (S j + n)%nat in * by lia.
      apply (IH st1 st' (S j) n); [|exact Hrun | rewrite <- Hrest; exact Hproj | lia].
      unfold MultiprocessIterator.next in Hnext.
      destruct (clock j).
      * subst state. injection Hnext as _ <-. cbn.
        exists (S j), (prej ++ [element']), u, (prej ++ [element']), u.
        rewrite !lookup_insert_eq. replace (S j - S j)%nat with O by lia.
        repeat split; auto.
      * subst state. rewrite Hits in Hnext. injection Hnext as _ <-. cbn.
        exists m, pre, itm, (prej ++ [element']), u.
        rewrite lookup_insert_eq.
        repeat split; auto; try lia. f_equal. lia.
    + (* a tuple of another worker *)
      apply (IH st1 st' j n); [|exact Hrun | exact Hproj | exact Hlen].
      exists m, pre, itm, prej, itj.
      assert (Hk : MultiprocessIterator.str w' <> MultiprocessIterator.str w)
        by (intros H; apply str_inj in H; contradiction).
      unfold MultiprocessIterator.next in Hnext.
      destruct state as [state|].
      * injection Hnext as _ <-. cbn. rewrite !lookup_insert_ne by exact Hk. auto.
      * destruct (MultiprocessIterator.iterations_to_skip st !! MultiprocessIterator.str w');
          [|discriminate].
        injection Hnext as _ <-. cbn. rewrite lookup_insert_ne by exact Hk. auto.
Qed.

End Replay.

Section ReplayTheorem.
Context {T : Type}.
Import Prefetch.

Lemma start_worker_inv (sliced : IterDataset.t T) (st : MultiprocessIterator.state)
    (w : Z) (itw : Prefetch.t T) :
  MultiprocessIterator.start_worker sliced st w = Some itw ->
  exists ws fresh restored n pre,
    MultiprocessIterator.workers_state st !! MultiprocessIterator.str w = Some ws /\
    IterDataset.iter sliced = Ok fresh /\
    set_state fresh ws = Ok restored /\
    MultiprocessIterator.iterations_to_skip st !! MultiprocessIterator.str w = Some n /\
    advance (Z.to_nat n) restored = Some (pre, itw).
Proof.
  unfold MultiprocessIterator.start_worker. intros H.
  destruct (MultiprocessIterator.workers_state st !! MultiprocessIterator.str w)
    as [ws|] eqn:E1; [|discriminate].
  cbn in H.
  destruct (IterDataset.iter sliced) as [fresh|] eqn:E2; [|discriminate]. cbn in H.
  destruct (set_state fresh ws) as [restored|] eqn:E3; [|discriminate]. cbn in H.
  destruct (MultiprocessIterator.iterations_to_skip st !! MultiprocessIterator.str w)
    as [n|] eqn:E4; [|discriminate].
  cbn in H.
  destruct (advance (Z.to_nat n) restored) as [[pre itw']|] eqn:Hadv; [|discriminate].
  cbn in H. injection H as <-.
  exists ws, fresh, restored, n, pre. auto.
Qed.

(** X17: the record kept by [MultiprocessPrefetchLazyDatasetIterator]
    is enough to resume a worker.  Start from the initial state; let the
    worker [w] stream its elements, recording its state whenever its
    clock says so; let the main process take, in any interleaving with
    other workers' tuples, the first [n] tuples of [w].  Then restoring
    [workers_state[w]] on a fresh iterator over the worker's dataset and
    skipping [iterations_to_skip[w]] elements succeeds and gives an
    iterator that delivers exactly what the worker's own iterator
    delivers after its first [n] elements. *)
Theorem worker_replay (open copy : option T -> option T) (clock : nat -> bool)
    (fuel : nat) (parent sliced : IterDataset.t T)
    (opts : Multiprocess.MultiprocessingOptions) (w : Z)
    (st0 st : MultiprocessIterator.state) (itw0 : Prefetch.t T)
    (handed : list (option T * option (gmap string Z) * Z)) (n : nat) :
  MultiprocessIterator.init parent opts = Ok st0 ->
  0 <= w < Multiprocess.num_workers opts ->
  MultiprocessIterator.start_worker sliced st0 w = Some itw0 ->
  MultiprocessIterator.run open st0 handed = Ok st ->
  (fun h : option T * option (gmap string Z) * Z => h.1.2)
    <$> filter (fun h => h.2 = w) handed
  = snd <$> take n (MultiprocessIterator.stream copy clock fuel 0 itw0) ->
  (n <= length (MultiprocessIterator.stream copy clock fuel 0 itw0))%nat ->
  exists pre itn resumed,
    advance n itw0 = Some (pre, itn) /\
    MultiprocessIterator.start_worker sliced st w = Some resumed /\
    forall F, (Z.to_nat (_dataset_length itn) < F)%nat ->
      (consume F resumed).1 = (consume F itn).1.
Proof.
  intros Hinit Hw Hstart Hrun Hproj Hlen.
  destruct (init_lookup parent opts st0 w Hinit Hw) as (Hws0 & Hits0 & _).
  destruct (start_worker_inv sliced st0 w itw0 Hstart)
    as (ws & fresh & restored0 & n0 & pre0 & Hws & Hiter & Hset0 & Hits & Hadv0).
  rewrite Hws0 in Hws. injection Hws as <-.
  rewrite Hits0 in Hits. injection Hits as <-.
  cbn in Hadv0. injection Hadv0 as _ <-.
  destruct (init_spec _ _ _ _ Hiter) as (Hwff & _ & _ & _ & Hif & _).
  (* the worker's first iterator *)
  assert (Hr0 : wf restored0 /\ same_config restored0 fresh /\ _next_index restored0 = 0).
  { destruct (set_state_get_state fresh fresh Hwff Hwff eq_refl)
      as (r & Hr & Hwfr & Hcr & Hir).
    unfold get_state in Hr. rewrite Hif in Hr.
    assert (r = restored0) as -> by congruence.
    split; [exact Hwfr|]. split; [exact Hcr | congruence]. }
  destruct Hr0 as (Hwf0 & Hc0 & Hi0).
  destruct (run_keeps_record open copy clock fuel w restored0 handed st0 st 0 n)
    as (m & pre & itm & prej & itj & Hm & Hadvm & Hadvj & Hwsj & Hitsj);
    [| exact Hrun | rewrite drop_0; exact Hproj | lia |].
  { exists O, [], restored0, [], restored0. cbn [advance].
    unfold get_state. rewrite Hi0. auto. }
  cbn [Nat.add] in *.
  exists prej, itj.
  destruct (advance_spec n restored0 prej itj Hwf0 Hadvj) as (Hwfj & Hcj & _).
  destruct (advance_spec m restored0 pre itm Hwf0 Hadvm) as (Hwfm & Hcm & _).
  (* restoring the recorded state *)
  assert (HLm : _dataset_length fresh = _dataset_length itm).
  { destruct Hcm as (_ & -> & _). destruct Hc0 as (_ & -> & _). reflexivity. }
  destruct (set_state_get_state fresh itm Hwfm Hwff HLm)
    as (restored & Hset & Hwfr & Hcr & Hir).
  (* the skipped iterations *)
  replace n with (m + (n - m))%nat in Hadvj by lia.
  destruct (advance_split m (n - m) restored0 prej itj Hadvj)
    as (p1 & s1 & p2 & Hadvm' & Hadvrest & ->).
  assert (s1 = itm) as -> by congruence.
  assert (Hcrm : same_config itm restored).
  { destruct Hcr as (? & ? & ? & ?), Hcm as (? & ? & ? & ?), Hc0 as (? & ? & ? & ?).
    unfold same_config. repeat split; congruence. }
  destruct (advance_equiv (n - m) itm restored p2 itj Hwfm Hwfr Hcrm (eq_sym Hir) Hadvrest)
    as (resumed & Hadvr & _ & Hwfres & Hcres & Hires).
  exists resumed. replace (m + (n - m))%nat with n by lia.
  split; [rewrite <- Hadvj; f_equal; lia|].
  split.
  - unfold MultiprocessIterator.start_worker.
    rewrite Hwsj. cbn. rewrite Hiter. cbn. rewrite Hset. cbn. rewrite Hitsj. cbn.
    rewrite Nat2Z.id, Hadvr. reflexivity.
  - intros F HF.
    destruct (consume_spec F resumed Hwfres) as (x1 & -> & _).
    { destruct Hcres as (_ & <- & _). destruct Hwfres as [? _].
      destruct Hwfj as [? _]. lia. }
    destruct (consume_spec F itj Hwfj) as (x2 & -> & _).
    { destruct Hwfj as [? _]. lia. }
    cbn [fst]. unfold remaining.
    destruct Hcres as (-> & -> & _ & ->). rewrite Hires. reflexivity.
Qed.
End ReplayTheorem.

(** * More about the thread-prefetch iterator *)

Section ThreadPrefetchFacts.
Context {T : Type}.
Import ThreadPrefetch ThreadPrefetchLoop.

(** On a started iterator [__next__] is the delegate's [__next__], and
    the state it records is the delegate's state after the element. *)
Lemma started_next (self : ThreadPrefetch.t T) (h : Heap.t) :
  started self ->
  match Prefetch.next (_iterator self) with
  | Some (Prefetch.Yield element it) =>
      exists self' h' l,
        next self h = Returns (element, self', h') /\
        started self' /\ _iterator self' = it /\
        _state self' = Some l /\ h' !! l = Some (Prefetch.get_state it)
  | Some (Prefetch.StopIteration _) => next self h = Raises StopIteration
  | Some (Prefetch.Raised e _) => next self h = Raises (Exn e)
  | None => next self h = Blocks
  end.
Proof.
  intros (Hc & Hp & [l0 Hs]).
  unfold next, next_loop, start_prefetch. rewrite Hc, Hp.
  unfold buffer_get. rewrite Hp.
  destruct (Prefetch.next (_iterator self)) as [[element it|it|e it]|]; try reflexivity.
  pose proof (Prefetch_get_state_object_fresh it h) as Hfresh.
  destruct (Prefetch_get_state_object it h) as [l h'].
  destruct Hfresh as (_ & Hl & _).
  cbn [_state with_producer]. rewrite Hs.
  eexists _, h', l. split; [reflexivity|].
  unfold started. cbn. repeat split; eauto.
Qed.

Lemma fresh_next (it : Prefetch.t T) (B : Z) (h : Heap.t) :
  match Prefetch.next it with
  | Some (Prefetch.Yield element it') =>
      exists self' h' l,
        next (init it B) h = Returns (element, self', h') /\
        started self' /\ _iterator self' = it' /\
        _state self' = Some l /\ h' !! l = Some (Prefetch.get_state it')
  | Some (Prefetch.StopIteration _) => next (init it B) h = Raises StopIteration
  | Some (Prefetch.Raised e _) => next (init it B) h = Raises (Exn e)
  | None => next (init it B) h = Blocks
  end.
Proof.
  unfold next, next_loop, start_prefetch, _start_producer_None, init, buffer_get.
  remember (@Prefetch.next T) as pnext eqn:Hpnext.
  remember (@Prefetch_get_state_object T) as pstate eqn:Hpstate.
  cbn.
  destruct (pstate it h) as [l0 h0]. cbn.
  destruct (pnext it) as [[element it'|it'|e it']|]; try reflexivity.
  subst pstate.
  pose proof (Prefetch_get_state_object_fresh it' h0) as Hfresh.
  destruct (Prefetch_get_state_object it' h0) as [l h'].
  destruct Hfresh as (_ & Hl & _).
  eexists _, h', l. split; [reflexivity|].
  unfold started. cbn. repeat split; eauto.
Qed.

Lemma started_consume fuel (self : ThreadPrefetch.t T) (h : Heap.t) :
  started self ->
  consume fuel self h = (Prefetch.consume fuel (_iterator self)).1.
Proof.
  revert self h. induction fuel as [|fuel IH]; intros self h Hst; [reflexivity|].
  cbn [consume Prefetch.consume].
  pose proof (started_next self h Hst) as Hn.
  destruct (Prefetch.next (_iterator self)) as [[element it|it|e it]|].
  - destruct Hn as (self' & h' & l & -> & Hst' & <- & _).
    rewrite (IH self' h' Hst').
    destruct (Prefetch.consume fuel (_iterator self')) as [[l' o] s]. reflexivity.
  - rewrite Hn. reflexivity.
  - rewrite Hn. reflexivity.
  - rewrite Hn. reflexivity.
Qed.

(** X18: a fresh [ThreadPrefetchLazyDatasetIterator] delivers, call
    after call, the elements its delegate iterator delivers, in the same
    order, and its loop ends as the delegate's does; the sentinel tuple
    is never delivered. *)
Theorem thread_prefetch_preserves_order (it : Prefetch.t T) (B : Z) (h : Heap.t)
    (fuel : nat) :
  consume fuel (init it B) h = (Prefetch.consume fuel it).1.
Proof.
  destruct fuel as [|fuel]; [reflexivity|].
  cbn [consume Prefetch.consume].
  pose proof (fresh_next it B h) as Hn.
  destruct (Prefetch.next it) as [[element it'|it'|e it']|].
  - destruct Hn as (self' & h' & l & -> & Hst' & <- & _).
    rewrite (started_consume fuel self' h' Hst').
    destruct (Prefetch.consume fuel (_iterator self')) as [[l' o] s]. reflexivity.
  - rewrite Hn. reflexivity.
  - rewrite Hn. reflexivity.
  - rewrite Hn. reflexivity.
Qed.

Lemma fresh_get_state (it : Prefetch.t T) (B : Z) (h : Heap.t) :
  get_state (init it B) h =
    let '(l, h1) := Prefetch_get_state_object it h in
    Returns (l,
             {| _iterator := it; _prefetch_buffer_size := B; _state := Some l;
                _closed := false; _producer := Running false |},
             h1).
Proof.
  unfold get_state, start_prefetch, _start_producer_None, init, buffer_get.
  remember (@Prefetch_get_state_object T) as pstate eqn:Hpstate.
  cbn. destruct (pstate it h) as [l h1]. reflexivity.
Qed.

(** X19: [get_state()] before any [__next__] on a thread-prefetch
    iterator returns the delegate's state before any element; the
    [__next__] that follows returns the same element, and records a state
    with the same content, as the first [__next__] of an iterator whose
    [get_state] was not called, or raises the same exception. *)
Theorem thread_prefetch_state_before_next (it : Prefetch.t T) (B : Z) (h : Heap.t) :
  exists l self1 h1,
    get_state (init it B) h = Returns (l, self1, h1) /\
    h1 !! l = Some (Prefetch.get_state it) /\
    match next (init it B) h, next self1 h1 with
    | Returns (e1, s1, h1'), Returns (e2, s2, h2') =>
        e1 = e2 /\
        exists l1 l2 state,
          _state s1 = Some l1 /\ h1' !! l1 = Some state /\
          _state s2 = Some l2 /\ h2' !! l2 = Some state
    | Raises err1, Raises err2 => err1 = err2
    | Blocks, Blocks => True
    | _, _ => False
    end.
Proof.
  pose proof (Prefetch_get_state_object_fresh it h) as Hfresh.
  pose proof (fresh_next it B h) as Hn.
  rewrite fresh_get_state.
  destruct (Prefetch_get_state_object it h) as [l h1].
  destruct Hfresh as (_ & Hl & _).
  set (self1 := {| _iterator := it; _prefetch_buffer_size := B; _state := Some l;
                   _closed := false; _producer := Running false |}).
  exists l, self1, h1. split; [reflexivity|]. split; [exact Hl|].
  assert (Hst : started self1) by (unfold started, self1; cbn; eauto).
  pose proof (started_next self1 h1 Hst) as Hn1.
  change (_iterator self1) with it in Hn1.
  destruct (Prefetch.next it) as [[element it'|it'|e it']|].
  - destruct Hn as (s1 & h1' & l1 & -> & _ & _ & Hs1 & Hl1).
    destruct Hn1 as (s2 & h2' & l2 & -> & _ & _ & Hs2 & Hl2).
    split; [reflexivity|]. exists l1, l2, (Prefetch.get_state it'). auto.
  - rewrite Hn, Hn1. reflexivity.
  - rewrite Hn, Hn1. reflexivity.
  - rewrite Hn, Hn1. exact I.
Qed.

(** X20: when the first [__next__] of a thread-prefetch iterator returns
    an element, that element is the delegate's first, and [get_state()]
    right after returns the delegate's state after that element, without
    changing the iterator. *)
Theorem thread_prefetch_state_after_next (it : Prefetch.t T) (B : Z) (h h' : Heap.t)
    (element : option T) (self' : ThreadPrefetch.t T) :
  next (init it B) h = Returns (element, self', h') ->
  exists it' l,
    Prefetch.next it = Some (Prefetch.Yield element it') /\
    get_state self' h' = Returns (l, self', h') /\
    h' !! l = Some (Prefetch.get_state it').
Proof.
  intros Hnext. pose proof (fresh_next it B h) as Hn.
  destruct (Prefetch.next it) as [[el it'|it'|e it']|];
    try (rewrite Hn in Hnext; discriminate).
  destruct Hn as (s1 & h1 & l & Hn & (Hc & Hp & _) & Hi & Hs & Hl).
  rewrite Hn in Hnext. injection Hnext as -> -> ->.
  exists it', l. split; [reflexivity|]. split; [|exact Hl].
  apply ThreadPrefetch_get_state_live; [exact Hc | rewrite Hp; discriminate | exact Hs].
Qed.

(** X21: after [close()], [__next__], [get_state] and [start_prefetch]
    of a thread-prefetch iterator raise [ValueError], whatever the
    iterator was doing before. *)
Theorem thread_prefetch_use_after_close (self : ThreadPrefetch.t T) (h : Heap.t) :
  next (close self) h = Raises (Exn ValueError) /\
  get_state (close self) h = Raises (Exn ValueError) /\
  start_prefetch (close self) = Raises (Exn ValueError).
Proof.
  unfold close, _stop_producer, next, next_loop, get_state, start_prefetch.
  destruct self as [it B st c p]. cbn. destruct p; cbn; auto.
Qed.
End ThreadPrefetchFacts.

(** * The registry of dataset functions, and the round robin *)

Section RegistryFacts.
Context {Dataset Args Res : Type}.
Implicit Types fs : gmap string (Dataset -> Args -> Res).

(** X22: when [register_function(name, function)] succeeds, [name] was
    not an attribute served by the registry before, [ds.name] is now
    [functools.partial(function, ds)] for every dataset, every other name
    resolves as before, and registering [name] again raises
    [ValueError]. *)
Theorem register_then_getattr fs fs' (name : string)
    (function : Dataset -> Args -> Res) :
  Registry.register_function fs name function = Ok fs' ->
  (forall self, Registry.getattr fs self name = None) /\
  (forall self, Registry.getattr fs' self name = Some (function self)) /\
  (forall self other, other <> name ->
     Registry.getattr fs' self other = Registry.getattr fs self other) /\
  (forall function', Registry.register_function fs' name function' = Raise ValueError).
Proof.
  unfold Registry.register_function, Registry.getattr.
  destruct (fs !! name) eqn:Hname; [discriminate|]. intros [= <-].
  split; [reflexivity|].
  split; [intros; rewrite lookup_insert_eq; reflexivity|].
  split; [intros self other Hne; rewrite lookup_insert_ne by congruence; reflexivity|].
  intros function'. rewrite lookup_insert_eq. reflexivity.
Qed.

End RegistryFacts.

(** X23: the pool is started at worker
    [(last_worker_index + 1) % num_workers]: worker 0 for a fresh
    iterator, and, after a [__next__] that took a tuple from worker [w],
    worker [w + 1], or 0 after the last worker; [__next__] returns the
    element it was handed, opened from shared memory. *)
Theorem first_worker_round_robin {T : Type} (open_shm : option T -> option T)
    (parent : IterDataset.t T) (opts : Multiprocess.MultiprocessingOptions)
    (st0 st st' : MultiprocessIterator.state)
    (element element' : option T) (state : option (gmap string Z)) (w : Z) :
  MultiprocessIterator.init parent opts = Ok st0 ->
  0 <= w < Multiprocess.num_workers opts ->
  MultiprocessIterator.next open_shm st element state w = Ok (element', st') ->
  MultiprocessIterator.first_worker st0 opts = Ok 0 /\
  MultiprocessIterator.first_worker st' opts
  = Ok (if w + 1 =? Multiprocess.num_workers opts then 0 else w + 1) /\
  element' = open_shm element.
Proof.
  intros Hinit Hw Hnext.
  assert (Hlast0 : MultiprocessIterator.last_worker_index st0 = -1).
  { unfold MultiprocessIterator.init in Hinit.
    destruct (MultiprocessIterator.init_loop _ _ _ _); [|discriminate].
    injection Hinit as <-. reflexivity. }
  assert (Hlast : MultiprocessIterator.last_worker_index st' = w /\ element' = open_shm element).
  { unfold MultiprocessIterator.next in Hnext. destruct state.
    - injection Hnext as <- <-. auto.
    - destruct (_ !! _); [|discriminate]. injection Hnext as <- <-. auto. }
  destruct Hlast as [Hlast ->].
  unfold MultiprocessIterator.first_worker, py_mod. rewrite Hlast0, Hlast.
  destruct (Z.eqb_spec (Multiprocess.num_workers opts) 0); [lia|].
  split; [rewrite Z.mod_0_l by lia; reflexivity|]. split; [|reflexivity].
  destruct (Z.eqb_spec (w + 1) (Multiprocess.num_workers opts)) as [->|].
  - rewrite Z.mod_same by lia. reflexivity.
  - rewrite Z.mod_small by lia. reflexivity.
Qed.

(** * Witnesses for the properties above *)

Lemma next_returns_first_deliverable_witness :
  match Prefetch.next Examples.range5_after_2 with
  | None => False
  | Some (Prefetch.Yield element s1) =>
      exists j,
        Prefetch._next_index Examples.range5_after_2 <= j
          < Prefetch._dataset_length (Examples.fresh Examples.range5 5 2 false) /\
        ds_getitem Examples.range5 j = Ok element /\
        (false = true \/ element <> None) /\
        (forall i, Prefetch._next_index Examples.range5_after_2 <= i < j ->
           false = false /\ ds_getitem Examples.range5 i = Ok None) /\
        Prefetch.get_state s1 = {[ "next_index" := j + 1 ]}
  | Some (Prefetch.StopIteration s1) =>
      (forall i, Prefetch._next_index Examples.range5_after_2 <= i
                 < Prefetch._dataset_length (Examples.fresh Examples.range5 5 2 false) ->
         false = false /\ ds_getitem Examples.range5 i = Ok None) /\
      Prefetch.get_state s1
      = {[ "next_index" := Prefetch._dataset_length (Examples.fresh Examples.range5 5 2 false) ]}
  | Some (Prefetch.Raised e s1) =>
      exists j,
        Prefetch._next_index Examples.range5_after_2 <= j
          < Prefetch._dataset_length (Examples.fresh Examples.range5 5 2 false) /\
        ds_getitem Examples.range5 j = Raise e /\
        (forall i, Prefetch._next_index Examples.range5_after_2 <= i < j ->
           false = false /\ ds_getitem Examples.range5 i = Ok None) /\
        Prefetch.get_state s1 = {[ "next_index" := j ]}
  end.
Proof.
  apply (next_returns_first_deliverable Examples.range5 (Examples.options 2 4) false
           (Examples.fresh Examples.range5 5 2 false) Examples.range5_after_2
           2 [Some 0; Some 1]).
  - reflexivity.
  - reflexivity.
Defined.

Lemma prefetch_window_after_next_witness :
  Prefetch._buffer Examples.range5_after_2 =
    Some (py_range (Prefetch._next_index Examples.range5_after_2)
            (Z.min (Prefetch._next_index Examples.range5_after_2
                    + ReadOptions.prefetch_buffer_size (Examples.options 2 4))
                   (Prefetch._dataset_length (Examples.fresh Examples.range5 5 2 false)))) /\
  forall buffer, Prefetch._buffer Examples.range5_after_2 = Some buffer ->
    Z.of_nat (length buffer)
    = Z.min (ReadOptions.prefetch_buffer_size (Examples.options 2 4))
            (Prefetch._dataset_length (Examples.fresh Examples.range5 5 2 false)
             - Prefetch._next_index Examples.range5_after_2).
Proof.
  apply (prefetch_window_after_next Examples.range5 (Examples.options 2 4) false
           (Examples.fresh Examples.range5 5 2 false) Examples.range5_after_2
           1 [Some 0; Some 1]).
  - simpl. lia.
  - reflexivity.
  - reflexivity.
Defined.

Lemma get_state_counts_elements_witness :
  Prefetch.get_state
    (MoreExamples.at_index Examples.range5 5 2 (Some [2; 3]) 2 true [0; 1; 2; 3])
  = {[ "next_index" := Z.of_nat 2 ]} /\
  length [Some 0; Some 1] = 2%nat /\
  forall (j : nat) element, [Some 0; Some 1] !! j = Some element ->
    ds_getitem Examples.range5 (Z.of_nat j) = Ok element.
Proof.
  apply (get_state_counts_elements Examples.range5 (Examples.options 2 4)
           (Examples.fresh Examples.range5 5 2 true)
           (MoreExamples.at_index Examples.range5 5 2 (Some [2; 3]) 2 true [0; 1; 2; 3])
           2 [Some 0; Some 1]).
  - reflexivity.
  - reflexivity.
Defined.

Lemma exhausted_stays_exhausted_witness :
  let final :=
    MoreExamples.at_index Examples.range5 5 5 (Some []) 2 false [0; 1; 2; 3; 4] in
  Prefetch.get_state final
  = {[ "next_index" := Prefetch._dataset_length (Examples.fresh Examples.range5 5 2 false) ]} /\
  Prefetch.next final = Some (Prefetch.StopIteration final) /\
  forall fuel', (0 < fuel')%nat ->
    Prefetch.consume fuel' final = ([], Prefetch.Exhausted, final).
Proof.
  apply (exhausted_stays_exhausted Examples.range5 (Examples.options 2 4) false
           (Examples.fresh Examples.range5 5 2 false)
           (MoreExamples.at_index Examples.range5 5 5 (Some []) 2 false [0; 1; 2; 3; 4])
           6 [Some 0; Some 1; Some 2; Some 3; Some 4]).
  - reflexivity.
  - reflexivity.
Defined.

Lemma restore_past_end_buffered_witness :
  exists restored failed,
    Prefetch.set_state (Examples.fresh Examples.range5 5 2 false)
      {[ "next_index" := 7 ]} = Ok restored /\
    Prefetch.next restored = Some (Prefetch.Raised IndexError failed) /\
    Prefetch.next failed = Some (Prefetch.Raised IndexError failed) /\
    Prefetch.get_state failed = {[ "next_index" := 7 ]}.
Proof.
  apply (restore_past_end_buffered Examples.range5 (Examples.options 2 4) false
           (Examples.fresh Examples.range5 5 2 false) 7).
  - reflexivity.
  - simpl. lia.
  - simpl. lia.
Defined.

Lemma restore_past_end_synchronous_witness :
  exists restored s1,
    Prefetch.set_state (Examples.fresh Examples.range5 5 0 false)
      {[ "next_index" := 7 ]} = Ok restored /\
    Prefetch.next restored = Some (Prefetch.Yield (Some 2) s1) /\
    Prefetch.get_state s1 = {[ "next_index" := 7 + 1 ]}.
Proof.
  apply (restore_past_end_synchronous Examples.range5 (Examples.options 0 1) false
           (Examples.fresh Examples.range5 5 0 false) 7 (Some 2)).
  - reflexivity.
  - simpl. lia.
  - simpl. lia.
  - reflexivity.
  - right. discriminate.
Defined.

Lemma retry_after_error_buffered_witness :
  let self := MoreExamples.at_index MoreExamples.faulty4 4 1 (Some [1; 2]) 2 false [0; 1; 2] in
  exists s1 s2,
    Prefetch.next self = Some (Prefetch.Raised (OtherError 7) s1) /\
    Prefetch.get_state s1 = {[ "next_index" := Prefetch._next_index self ]} /\
    Prefetch.next s1 = Some (Prefetch.Yield (Some 2) s2) /\
    Prefetch.get_state s2 = {[ "next_index" := Prefetch._next_index self + 1 ]}.
Proof.
  apply (retry_after_error_buffered MoreExamples.faulty4 (Examples.options 2 4) false
           (Examples.fresh MoreExamples.faulty4 4 2 false)
           (MoreExamples.at_index MoreExamples.faulty4 4 1 (Some [1; 2]) 2 false [0; 1; 2])
           1 [Some 0] (OtherError 7) (Some 2)).
  - reflexivity.
  - reflexivity.
  - simpl. lia.
  - reflexivity.
  - simpl. lia.
  - reflexivity.
  - right. discriminate.
Defined.

Lemma retry_after_error_synchronous_witness :
  let self := MoreExamples.at_index MoreExamples.faulty4 4 1 None 0 false [0] in
  exists s1 s2,
    Prefetch.next self = Some (Prefetch.Raised (OtherError 7) s1) /\
    Prefetch.get_state s1 = {[ "next_index" := Prefetch._next_index self ]} /\
    Prefetch.next s1 = Some (Prefetch.Raised (OtherError 7) s2) /\
    Prefetch.get_state s2 = {[ "next_index" := Prefetch._next_index self ]}.
Proof.
  apply (retry_after_error_synchronous MoreExamples.faulty4 (Examples.options 0 1) false
           (Examples.fresh MoreExamples.faulty4 4 0 false)
           (MoreExamples.at_index MoreExamples.faulty4 4 1 None 0 false [0])
           1 [Some 0] (OtherError 7)).
  - reflexivity.
  - reflexivity.
  - simpl. lia.
  - simpl. lia.
  - reflexivity.
Defined.

Lemma restore_across_read_options_witness :
  exists restored,
    Prefetch.set_state (Examples.fresh Examples.range5 5 0 false)
      (Prefetch.get_state Examples.range5_after_2) = Ok restored /\
    (Prefetch.consume 6 restored).1 = (Prefetch.consume 6 Examples.range5_after_2).1 /\
    (Prefetch.consume 6 Examples.range5_after_2).1.2 <> Prefetch.Unfinished.
Proof.
  apply (restore_across_read_options Examples.range5 (Examples.options 2 4)
           (Examples.options 0 1) false
           (Examples.fresh Examples.range5 5 2 false) Examples.range5_after_2
           (Examples.fresh Examples.range5 5 0 false) 2 [Some 0; Some 1] 6).
  - reflexivity.
  - reflexivity.
  - reflexivity.
  - simpl. lia.
Defined.

Lemma multiprocess_at_most_once_witness :
  Multiprocess.init
    (Multiprocess.Node false
       [Multiprocess.Node true [Multiprocess.Node false []]])
    MoreExamples.two_workers
  = Raise ValueError.
Proof.
  apply (multiprocess_at_most_once (Multiprocess.Node false [])
           (Multiprocess.Node true [Multiprocess.Node false []])
           (Multiprocess.Node false [Multiprocess.Node true [Multiprocess.Node false []]])
           MoreExamples.two_workers MoreExamples.two_workers).
  - reflexivity.
  - apply reaches_parent with (p := Multiprocess.Node true [Multiprocess.Node false []]).
    + simpl. left. reflexivity.
    + apply reaches_self.
Defined.

Lemma worker_replay_witness :
  let itw0 := Examples.fresh (Range.as_dataset (Range.init 0 (Some 5) 2)) 3 0 false in
  exists pre itn resumed,
    Prefetch.advance 2 itw0 = Some (pre, itn) /\
    MultiprocessIterator.start_worker MoreExamples.range5_worker0
      MoreExamples.state_after_handed 0 = Some resumed /\
    forall F, (Z.to_nat (Prefetch._dataset_length itn) < F)%nat ->
      (Prefetch.consume F resumed).1 = (Prefetch.consume F itn).1.
Proof.
  apply (worker_replay id id MoreExamples.clock 4
           MoreExamples.range5_iter MoreExamples.range5_worker0
           MoreExamples.two_workers 0
           MoreExamples.initial_state MoreExamples.state_after_handed
           (Examples.fresh (Range.as_dataset (Range.init 0 (Some 5) 2)) 3 0 false)
           MoreExamples.handed 2).
  - vm_compute. reflexivity.
  - simpl. lia.
  - vm_compute. reflexivity.
  - vm_compute. reflexivity.
  - vm_compute. reflexivity.
  - vm_compute. lia.
Defined.

Lemma thread_prefetch_state_after_next_witness :
  exists it' l,
    Prefetch.next (Examples.fresh Examples.range5 5 0 false)
    = Some (Prefetch.Yield MoreExamples.thread_prefetch_first.1.1 it') /\
    ThreadPrefetch.get_state MoreExamples.thread_prefetch_first.1.2
      MoreExamples.thread_prefetch_first.2
    = ThreadPrefetch.Returns
        (l, MoreExamples.thread_prefetch_first.1.2, MoreExamples.thread_prefetch_first.2) /\
    MoreExamples.thread_prefetch_first.2 !! l = Some (Prefetch.get_state it').
Proof.
  apply (thread_prefetch_state_after_next (Examples.fresh Examples.range5 5 0 false) 2 ∅
           MoreExamples.thread_prefetch_first.2
           MoreExamples.thread_prefetch_first.1.1
           MoreExamples.thread_prefetch_first.1.2).
  reflexivity.
Defined.

Lemma register_then_getattr_witness :
  let fs : gmap string (Z -> Z -> Z) := ∅ in
  let fs' : gmap string (Z -> Z -> Z) := {[ "prefetch" := Z.add ]} in
  (forall self, Registry.getattr fs self "prefetch" = None) /\
  (forall self, Registry.getattr fs' self "prefetch" = Some (Z.add self)) /\
  (forall self other, other <> "prefetch" ->
     Registry.getattr fs' self other = Registry.getattr fs self other) /\
  (forall function', Registry.register_function fs' "prefetch" function' = Raise ValueError).
Proof.
  apply (register_then_getattr (∅ : gmap string (Z -> Z -> Z))
           {[ "prefetch" := Z.add ]} "prefetch" Z.add).
  reflexivity.
Defined.

Lemma first_worker_round_robin_witness :
  MultiprocessIterator.first_worker MoreExamples.initial_state MoreExamples.two_workers
  = Ok 0 /\
  MultiprocessIterator.first_worker MoreExamples.state_after_fourth MoreExamples.two_workers
  = Ok (if 1 + 1 =? Multiprocess.num_workers MoreExamples.two_workers then 0 else 1 + 1) /\
  Some 3 = id (Some 3).
Proof.
  apply (first_worker_round_robin id MoreExamples.range5_iter MoreExamples.two_workers
           MoreExamples.initial_state MoreExamples.state_after_handed
           MoreExamples.state_after_fourth (Some 3) (Some 3) None 1).
  - vm_compute. reflexivity.
  - simpl. lia.
  - vm_compute. reflexivity.
Defined.
